(** * pr-review-bot: the deduplicating review scheduler

    A shallow embedding of the scheduler core of the bot:
    - [src/types/index.ts]        the data model and [getReviewTier];
    - [src/components/state.tsx]  the durable review store
                                  ([isReviewed], [recordReview], [getReviewHistory]);
    - [src/components/github.tsx] the code-hosting client;
    - [src/components/review-pr.tsx] the per-item pipeline [ReviewPR]
                                  and [parseReviewResult];
    - the App ([./src/app])       [handlePullRequest], [handleReviewComplete]
                                  and the [For]/[Show] loop.

    - [src/components/http-server.tsx] the dashboard API;
    - the Channel                 the webhook listener and [verifySignature];
    - [src/memory.ts]             [getState] of the file backend.

    The runtime that persists the hook output, mounts the [ReviewPR]
    instances and writes the state file is outside the embedding: the
    store is the value the hook holds.

    JavaScript numbers that carry identifiers and line counts are integers
    and are modelled by [Z]; arrays are lists; [null]/[undefined] is [None];
    an exception is an explicit [Throw] completion; console output and calls
    to the external services are recorded in a trace of [Event]s. *)

From Stdlib Require Import ZArith List String Ascii Bool Lia.
Import ListNotations.

Local Open Scope string_scope.
Local Open Scope Z_scope.

Infix "+++" := String.append (at level 60, right associativity).

(** ** JavaScript completions *)

Inductive Error : Type :=
| SyntaxError
| TypeError
| ServiceError (status : Z).

Inductive Completion (A : Type) : Type :=
| Normal (a : A)
| Throw (e : Error).

Arguments Normal {A} & a.
Arguments Throw {A} e.

(** ** Data model, [src/types/index.ts] *)

Inductive Verdict : Type := approve | request_changes | comment.

(** The string a verdict is written as. *)
Definition verdict_text (v : Verdict) : string :=
  match v with
  | approve => "approve"
  | request_changes => "request_changes"
  | comment => "comment"
  end.

(** A value found where the declared type asks for a verdict.  The parsed
    answer of the inference service is cast to [ReviewResult] without a
    check, so its [verdict] can be any JSON value or be missing:
    [string_value s] is the string [s]; [other_value key] is a value that
    is not a string (undefined, null, a number, an array, an object),
    [key] being the string it turns into when it is used as a property
    key. *)
Inductive VerdictValue : Type :=
| string_value (s : string)
| other_value (key : string).

Definition verdict_value (v : Verdict) : VerdictValue :=
  string_value (verdict_text v).
Coercion verdict_value : Verdict >-> VerdictValue.

(** [value === v], for one of the three verdict strings. *)
Definition is_verdict (v : Verdict) (value : VerdictValue) : bool :=
  match value with
  | string_value s => String.eqb s (verdict_text v)
  | other_value _ => false
  end.

(** The [event] handed to [postReviewComment]: one of the three review
    events, or [no_event key] for what [verdictMap] holds under a key that
    is none of its three own keys (undefined, or a property the object
    inherits). *)
Inductive ReviewEvent : Type :=
| event_of (v : Verdict)
| no_event (key : string).

Coercion event_of : Verdict >-> ReviewEvent.
Inductive Severity : Type := low | medium | high.
Inductive ReviewTier : Type := quick | standard | deep.

Module PullRequestEvent.
Record t : Type := mk {
  id : Z;
  number : Z;
  title : string;
  author : string;
  body : option string;
  repo : string;
  baseBranch : string;
  headBranch : string;
  diffUrl : string;
  htmlUrl : string;
  changedLines : Z;
  createdAt : string
}.
End PullRequestEvent.

Module ReviewFinding.
Record t : Type := mk {
  file : option string;
  category : string;
  description : string;
  suggestion : string;
  severity : Severity
}.
End ReviewFinding.

Module ReviewResult.
Record t : Type := mk {
  summary : string;
  verdict : Verdict;
  severity : Severity;
  findings : list ReviewFinding.t;
  positives : list string;
  commentBody : string
}.
End ReviewResult.

(** [verdict] holds what the pipeline stored, which is the unchecked
    [reviewResult.verdict]. *)
Module ReviewRecord.
Record t : Type := mk {
  prId : Z;
  prNumber : Z;
  repo : string;
  reviewedAt : string;
  verdict : VerdictValue;
  commentId : option Z
}.
End ReviewRecord.

(** [getReviewTier], src/types/index.ts:96-100. *)
Definition getReviewTier (changedLines : Z) : ReviewTier :=
  if changedLines <=? 50 then quick
  else if changedLines <=? 300 then standard
  else deep.

(** ** Trace of observable effects

    One constructor per console statement of the source, and one per call
    to an external service. *)

Inductive Msg : Type :=
| State_not_ready
| State_persisted (prNumber : Z) (repo : string)
| App_already_reviewed (number : Z)
| App_already_queued (number : Z)
| App_queuing (number : Z)
| App_removed (prId : Z)
| GitHub_fetched_diff (length : nat)
| GitHub_fetch_failed (e : Error)
| GitHub_posted (event : ReviewEvent) (prNumber : Z) (reviewId : Z)
| GitHub_post_failed (prNumber : Z) (e : Error)
| ReviewPR_starting (number : Z) (title : string)
| ReviewPR_skipping (number : Z)
| ReviewPR_empty_diff (number : Z)
| ReviewPR_tier (number : Z) (changedLines : Z) (tier : ReviewTier)
| ReviewPR_sending (number : Z)
| ReviewPR_claude_error (number : Z) (e : Error)
| ReviewPR_parse_fallback (number : Z)
| ReviewPR_reviewed (number : Z) (v : VerdictValue) (summary : string).

Inductive Event : Type :=
| console_log (m : Msg)
| console_warn (m : Msg)
| console_error (m : Msg)
| call_listReviews (owner repoName : option string) (pull_number : Z)
| call_fetch (url : string)
| call_messages_create (apiKey : option string) (max_tokens : Z) (system user : string)
| call_createReview (owner repoName : option string) (pull_number : Z)
                    (body : string) (event : ReviewEvent).

(** ** The durable review store, [src/components/state.tsx] *)

Module State.

(** The module-level variables of state.tsx together with the hook output
    they refer to.
    - [outputs] is [prev?.reviews] of the [useAsyncOutput] hook: [None]
      while the hook has no output yet ([prev] is null), otherwise the
      persisted array of records;
    - [_setOutputs] is true when the module variable holds the hook's
      setter, false when it is [null];
    - [_reviews] is true when the module variable holds the accessor,
      false when it is [null]. *)
Record t : Type := mk {
  outputs : option (list ReviewRecord.t);
  _setOutputs : bool;
  _reviews : bool
}.

(** [x ?? []] *)
Definition orEmpty (x : option (list ReviewRecord.t)) : list ReviewRecord.t :=
  match x with Some l => l | None => [] end.

(** The module as loaded, before [StateManager] has run: both module
    variables are [null]; [restored] is what the runtime restored from
    the memory backend. *)
Definition loaded (restored : option (list ReviewRecord.t)) : t :=
  {| outputs := restored; _setOutputs := false; _reviews := false |}.

(** Body of [StateManager], line 46: the accessor is exposed. *)
Definition StateManager_render (s : t) : t :=
  {| outputs := outputs s; _setOutputs := _setOutputs s; _reviews := true |}.

(** Handler given to [useAsyncOutput], lines 28-37. *)
Definition StateManager_handler (s : t) : t :=
  {| outputs := Some (orEmpty (outputs s));
     _setOutputs := true;
     _reviews := _reviews s |}.

(** Cleanup returned by the handler, lines 39-42. *)
Definition StateManager_cleanup (s : t) : t :=
  {| outputs := outputs s; _setOutputs := false; _reviews := false |}.

(** [isReviewed], lines 60-63. *)
Definition isReviewed (s : t) (prId : Z) : bool :=
  if negb (_reviews s) then false
  else existsb (fun r => ReviewRecord.prId r =? prId) (orEmpty (outputs s)).

(** [recordReview], lines 69-80.  The function returns [void]: the model
    returns the new module state and what was written to the console. *)
Definition recordReview (record : ReviewRecord.t) (s : t) : t * list Event :=
  if negb (_setOutputs s) then
    (s, [console_warn State_not_ready])
  else
    ({| outputs := Some (orEmpty (outputs s) ++ [record])%list;
        _setOutputs := _setOutputs s;
        _reviews := _reviews s |},
     [console_log (State_persisted (ReviewRecord.prNumber record)
                                   (ReviewRecord.repo record))]).

(** [getReviewHistory], lines 85-88. *)
Definition getReviewHistory (s : t) : list ReviewRecord.t :=
  if negb (_reviews s) then [] else orEmpty (outputs s).

(** The records held by the store, whether or not the accessor is mounted. *)
Definition records (s : t) : list ReviewRecord.t := orEmpty (outputs s).

(** The identifiers of the records held by the store. *)
Definition ids (s : t) : list Z := map ReviewRecord.prId (records s).

(** A sequence of [recordReview] calls. *)
Fixpoint recordReviews (rs : list ReviewRecord.t) (s : t) : t :=
  match rs with
  | [] => s
  | r :: rs' => recordReviews rs' (fst (recordReview r s))
  end.

End State.

(** ** Strings

    JavaScript strings are modelled by [string]; the characters that the
    source writes with an escape are named here. *)

Definition nl : ascii := "010"%char.
Definition dq : ascii := "034"%char.
Definition str (c : ascii) : string := String c EmptyString.

(** [s.split(sep)] for a one-character separator. *)
Fixpoint split (sep : ascii) (s : string) : list string :=
  match s with
  | EmptyString => [EmptyString]
  | String c rest =>
      if Ascii.eqb c sep then EmptyString :: split sep rest
      else match split sep rest with
           | h :: t => String c h :: t
           | [] => [str c]
           end
  end.

(** [s.replace(/pat\n?/g, empty)]: every occurrence of [pat], with the line
    feed that may follow it, is removed, scanning from the left.  [skip]
    counts the characters of the current match still to drop and
    [lf] tells that a match has just ended. *)
Fixpoint replace_go (pat : string) (skip : nat) (lf : bool) (s : string) : string :=
  match s with
  | EmptyString => EmptyString
  | String c rest =>
      match skip with
      | S k => replace_go pat k lf rest
      | O =>
          if lf && Ascii.eqb c nl then replace_go pat 0 false rest
          else if String.prefix pat s
               then replace_go pat (Nat.pred (String.length pat)) true rest
               else String c (replace_go pat 0 false rest)
      end
  end.

Definition replace_fence (pat : string) (s : string) : string :=
  replace_go pat 0 false s.

(** White space removed by [trim()], among the characters of [ascii]:
    tab, line feed, vertical tab, form feed, carriage return, space and
    the no-break space. *)
Definition is_space (c : ascii) : bool :=
  match nat_of_ascii c with
  | 9%nat | 10%nat | 11%nat | 12%nat | 13%nat | 32%nat | 160%nat => true
  | _ => false
  end.

Fixpoint trimStart (s : string) : string :=
  match s with
  | EmptyString => EmptyString
  | String c rest => if is_space c then trimStart rest else s
  end.

Fixpoint trimEnd (s : string) : string :=
  match s with
  | EmptyString => EmptyString
  | String c rest =>
      match trimEnd rest with
      | EmptyString => if is_space c then EmptyString else str c
      | r => String c r
      end
  end.

Definition trim (s : string) : string := trimEnd (trimStart s).

(** JavaScript truthiness of a string: [!s] holds for the empty string. *)
Definition falsy (s : string) : bool :=
  match s with EmptyString => true | _ => false end.

(** ** The external services

    What the collaborators answer during one pipeline run.  A rejected
    promise or a thrown exception is [Throw]. *)

Module GitHubReview.
(** An entry of [octokit.pulls.listReviews]; [login] is [r.user?.login]. *)
Record t : Type := mk { login : option string }.
End GitHubReview.

Module Response.
Record t : Type := mk {
  ok : bool;
  status : Z;
  text : Completion string
}.
End Response.

Inductive ContentBlock : Type :=
| text_block (text : string)
| other_block.

Module World.
Record t : Type := mk {
  (** [botLogin] of the GitHub component: empty until authenticated. *)
  botLogin : string;
  listReviews : Completion (list GitHubReview.t);
  fetch : Completion Response.t;
  createReview : Completion Z;
  (** [new Anthropic({ apiKey })] *)
  new_Anthropic : Completion unit;
  (** the content blocks of [client.messages.create(...)] *)
  messages_create : Completion (list ContentBlock);
  (** [new Date().toISOString()] *)
  now : string
}.
End World.

(** ** The code-hosting client, [src/components/github.tsx]

    Each function returns its value and the trace it leaves. *)

Module GitHub.

Record GitHubAPI : Type := mk {
  fetchDiff : string -> string * list Event;
  postReviewComment : string -> Z -> string -> ReviewEvent -> Z * list Event;
  botAlreadyCommented : string -> Z -> bool * list Event
}.

(** [const [owner, repoName] = repo.split("/")] *)
Definition owner_of (repo : string) : option string := nth_error (split "/" repo) 0.
Definition repoName_of (repo : string) : option string := nth_error (split "/" repo) 1.

(** [fetchDiff], lines 65-88. *)
Definition fetchDiff_impl (w : World.t) (diffUrl : string) : string * list Event :=
  match World.fetch w with
  | Throw e => (EmptyString, [call_fetch diffUrl; console_error (GitHub_fetch_failed e)])
  | Normal response =>
      if negb (Response.ok response) then
        (EmptyString,
         [call_fetch diffUrl;
          console_error (GitHub_fetch_failed (ServiceError (Response.status response)))])
      else
        match Response.text response with
        | Throw e =>
            (EmptyString, [call_fetch diffUrl; console_error (GitHub_fetch_failed e)])
        | Normal diff =>
            (diff, [call_fetch diffUrl;
                    console_log (GitHub_fetched_diff (String.length diff))])
        end
  end.

(** [postReviewComment], lines 90-118: the review id, or [-1] when the
    request fails. *)
Definition postReviewComment_impl (w : World.t)
    (repo : string) (prNumber : Z) (body : string) (verdict : ReviewEvent)
    : Z * list Event :=
  let owner := owner_of repo in
  let repoName := repoName_of repo in
  match World.createReview w with
  | Normal data_id =>
      (data_id, [call_createReview owner repoName prNumber body verdict;
                 console_log (GitHub_posted verdict prNumber data_id)])
  | Throw e =>
      (-1, [call_createReview owner repoName prNumber body verdict;
            console_error (GitHub_post_failed prNumber e)])
  end.

(** [botAlreadyCommented], lines 120-138. *)
Definition botAlreadyCommented_impl (w : World.t)
    (repo : string) (prNumber : Z) : bool * list Event :=
  if falsy (World.botLogin w) then (false, [])
  else
    let owner := owner_of repo in
    let repoName := repoName_of repo in
    match World.listReviews w with
    | Normal reviews =>
        (existsb (fun r => match GitHubReview.login r with
                           | Some l => String.eqb l (World.botLogin w)
                           | None => false
                           end) reviews,
         [call_listReviews owner repoName prNumber])
    | Throw _ => (false, [call_listReviews owner repoName prNumber])
    end.

(** The [api] object handed to the children of [GitHub]. *)
Definition api (w : World.t) : GitHubAPI :=
  {| fetchDiff := fetchDiff_impl w;
     postReviewComment := postReviewComment_impl w;
     botAlreadyCommented := botAlreadyCommented_impl w |}.

End GitHub.

(** ** Program state and the effect monad

    The mutable module-level variables of the program: those of state.tsx
    and the [pendingPRs] signal of the App. *)

Module Heap.
Record t : Type := mk {
  state : State.t;
  pendingPRs : list PullRequestEvent.t
}.
End Heap.

(** A procedure reads and updates the heap and leaves a trace. *)
Definition Proc (A : Type) : Type := Heap.t -> A * Heap.t * list Event.

Definition ret {A : Type} (a : A) : Proc A := fun h => (a, h, []).

Definition bind {A B : Type} (c : Proc A) (k : A -> Proc B) : Proc B :=
  fun h =>
    let '(a, h1, t1) := c h in
    let '(b, h2, t2) := k a h1 in
    (b, h2, (t1 ++ t2)%list).

Definition emit (e : Event) : Proc unit := fun h => (tt, h, [e]).

(** Reading the heap. *)
Definition read {A : Type} (f : Heap.t -> A) : Proc A := fun h => (f h, h, []).

(** A call that leaves a trace and does not touch the heap. *)
Definition traced {A : Type} (r : A * list Event) : Proc A :=
  fun h => (fst r, h, snd r).

(** A call into state.tsx. *)
Definition on_state (f : State.t -> State.t * list Event) : Proc unit :=
  fun h =>
    let '(s, t) := f (Heap.state h) in
    (tt, {| Heap.state := s; Heap.pendingPRs := Heap.pendingPRs h |}, t).

(** [setPendingPRs(f)] *)
Definition setPendingPRs
    (f : list PullRequestEvent.t -> list PullRequestEvent.t) : Proc unit :=
  fun h =>
    (tt, {| Heap.state := Heap.state h; Heap.pendingPRs := f (Heap.pendingPRs h) |}, []).

Declare Scope proc_scope.
Delimit Scope proc_scope with proc.
Notation "x <- c ;; k" := (bind c (fun x => k))
  (at level 61, c at next level, right associativity) : proc_scope.
Notation "c ;; k" := (bind c (fun _ => k))
  (at level 61, right associativity) : proc_scope.

Definition heap_of {A : Type} (r : A * Heap.t * list Event) : Heap.t := snd (fst r).
Definition trace_of {A : Type} (r : A * Heap.t * list Event) : list Event := snd r.

(** Whether a stage left its mark in a trace. *)
Definition is_call_fetch (e : Event) : bool :=
  match e with call_fetch _ => true | _ => false end.
Definition is_call_messages_create (e : Event) : bool :=
  match e with call_messages_create _ _ _ _ => true | _ => false end.
Definition is_call_createReview (e : Event) : bool :=
  match e with call_createReview _ _ _ _ _ => true | _ => false end.
Definition is_reviewed_log (e : Event) : bool :=
  match e with console_log (ReviewPR_reviewed _ _ _) => true | _ => false end.
Definition is_removed_log (prId : Z) (e : Event) : bool :=
  match e with console_log (App_removed i) => i =? prId | _ => false end.

(** ** The pipeline, [src/components/review-pr.tsx] *)

(** What [JSON.parse] returned, as far as [ReviewPR] reads it.  The cast
    [as ReviewResult] checks nothing, so the value is any JSON value:
    - [null]: reading a property of it throws;
    - [value commentBody verdict summary]: any other value, with the text
      its [commentBody] and its [summary] give when a template
      interpolates them ([undefined] for a missing property) and what its
      [verdict] property holds.
    Values whose conversion to a string throws (an object with an own
    [toString] that is no function) are outside the model. *)
Module Parsed.
Inductive t : Type :=
| null
| value (commentBody : string) (verdict : VerdictValue) (summary : string).
End Parsed.

(** A value of the declared type [ReviewResult], seen as a parsed value. *)
Definition of_ReviewResult (r : ReviewResult.t) : Parsed.t :=
  Parsed.value (ReviewResult.commentBody r)
               (ReviewResult.verdict r)
               (ReviewResult.summary r).
Coercion of_ReviewResult : ReviewResult.t >-> Parsed.t.

(** [verdictMap[key]], lines 113-120. *)
Definition verdictMap (key : string) : ReviewEvent :=
  if String.eqb key "approve" then event_of approve
  else if String.eqb key "request_changes" then event_of request_changes
  else if String.eqb key "comment" then event_of comment
  else no_event key.

(** The property key a verdict value is used as. *)
Definition key_of (verdict : VerdictValue) : string :=
  match verdict with
  | string_value s => s
  | other_value key => key
  end.

(** How a run ends once the comment is posted and the record written:
    with the reviewed line and [onComplete] when the verdict is a string,
    with the exception of line 148 otherwise. *)
Definition settles (verdict : VerdictValue) : Completion unit :=
  match verdict with
  | string_value _ => Normal tt
  | other_value _ => Throw TypeError
  end.

(** [JSON.parse] is the language's parser; it throws on text that is not
    JSON.  The two functions of [src/prompts/review.ts] only build
    text. *)

Section Pipeline.

Variable JSON_parse : string -> Completion Parsed.t.
Variable buildReviewPrompt :
  PullRequestEvent.t -> string -> ReviewTier -> string * string.
Variable formatGitHubComment : Z -> ReviewTier -> string -> string.

(** The object literal of lines 175-182. *)
Definition fallback (raw : string) (pr : PullRequestEvent.t) : ReviewResult.t :=
  {| ReviewResult.summary :=
       "Review for " +++ str dq +++ PullRequestEvent.title pr +++ str dq;
     ReviewResult.verdict := comment;
     ReviewResult.severity := low;
     ReviewResult.findings := [];
     ReviewResult.positives := [];
     ReviewResult.commentBody :=
       "I reviewed this PR but encountered an issue formatting the structured output. Here's the raw analysis:"
       +++ str nl +++ str nl +++ raw |}.

(** [cleaned], line 167. *)
Definition cleaned (raw : string) : string :=
  trim (replace_fence "```" (replace_fence "```json" raw)).

(** [parseReviewResult], lines 161-184: the completion of the function
    and its console output.  What [JSON.parse] returns is returned as it
    is. *)
Definition parseReviewResult (raw : string) (pr : PullRequestEvent.t)
    : Completion Parsed.t * list Event :=
  match JSON_parse (cleaned raw) with
  | Normal parsed => (Normal parsed, [])
  | Throw _ =>
      (Normal (of_ReviewResult (fallback raw pr)),
       [console_warn (ReviewPR_parse_fallback (PullRequestEvent.number pr))])
  end.

Record ReviewPRProps : Type := mkProps {
  pr : PullRequestEvent.t;
  github : GitHub.GitHubAPI;
  anthropicApiKey : option string;
  onComplete : Z -> Proc unit
}.

Definition max_tokens (tier : ReviewTier) : Z :=
  match tier with deep => 4096 | standard => 2048 | quick => 1024 end.

(** The text of the first content block when it is a text block, the
    empty string otherwise; lines 99-100. *)
Definition raw_of (block : ContentBlock) : string :=
  match block with
  | text_block text => text
  | other_block => EmptyString
  end.

(** The record written at Step 7, lines 138-145, for the verdict value
    found in the parsed answer. *)
Definition commit_record (w : World.t) (p : PullRequestEvent.t)
    (verdict : VerdictValue) (commentId : option Z) : ReviewRecord.t :=
  {| ReviewRecord.prId := PullRequestEvent.id p;
     ReviewRecord.prNumber := PullRequestEvent.number p;
     ReviewRecord.repo := PullRequestEvent.repo p;
     ReviewRecord.reviewedAt := World.now w;
     ReviewRecord.verdict := verdict;
     ReviewRecord.commentId := commentId |}.

(** The same record for a result of the declared type. *)
Definition record_of (w : World.t) (p : PullRequestEvent.t)
    (reviewResult : ReviewResult.t) (commentId : option Z) : ReviewRecord.t :=
  commit_record w p (ReviewResult.verdict reviewResult) commentId.

(** The [try] block of Step 5, lines 88-102; its [catch] is in [ReviewPR]. *)
Definition callClaude (w : World.t) (apiKey : option string)
    (p : PullRequestEvent.t) (tier : ReviewTier) (system user : string)
    : Completion Parsed.t * list Event :=
  match World.new_Anthropic w with
  | Throw e => (Throw e, [])
  | Normal _ =>
      let sent :=
        [console_log (ReviewPR_sending (PullRequestEvent.number p));
         call_messages_create apiKey (max_tokens tier) system user] in
      match World.messages_create w with
      | Throw e => (Throw e, sent)
      | Normal [] => (Throw TypeError, sent)
      | Normal (block :: _) =>
          let raw := raw_of block in
          let '(r, t) := parseReviewResult raw p in
          (r, (sent ++ t)%list)
      end
  end.

(** [commentId > 0 ? commentId : undefined], line 144. *)
Definition commentId_of (commentId : Z) : option Z :=
  if commentId >? 0 then Some commentId else None.

(** The body of [onMount] in [ReviewPR], lines 41-154.  The result is how
    the async function settles: [Throw] is an exception that nothing
    catches, after which the rest of the body does not run. *)
Definition ReviewPR (w : World.t) (props : ReviewPRProps) : Proc (Completion unit) :=
  let p := pr props in
  (emit (console_log (ReviewPR_starting (PullRequestEvent.number p)
                                        (PullRequestEvent.title p))) ;;
   (* Step 1: did the bot already comment? *)
   alreadyCommented <-
     traced (GitHub.botAlreadyCommented (github props)
               (PullRequestEvent.repo p) (PullRequestEvent.number p)) ;;
   if alreadyCommented : bool then
     emit (console_log (ReviewPR_skipping (PullRequestEvent.number p))) ;;
     onComplete props (PullRequestEvent.id p) ;;
     ret (Normal tt)
   else
   (* Step 2: fetch the diff *)
   diff <- traced (GitHub.fetchDiff (github props) (PullRequestEvent.diffUrl p)) ;;
   if falsy diff then
     emit (console_warn (ReviewPR_empty_diff (PullRequestEvent.number p))) ;;
     onComplete props (PullRequestEvent.id p) ;;
     ret (Normal tt)
   else
   (* Step 3: review tier *)
   let tier := getReviewTier (PullRequestEvent.changedLines p) in
   emit (console_log (ReviewPR_tier (PullRequestEvent.number p)
                                    (PullRequestEvent.changedLines p) tier)) ;;
   (* Step 4: the prompt *)
   let '(system, user) := buildReviewPrompt p diff tier in
   (* Step 5: call Claude *)
   attempt <- traced (callClaude w (anthropicApiKey props) p tier system user) ;;
   match attempt with
   | Throw err =>
       emit (console_error (ReviewPR_claude_error (PullRequestEvent.number p) err)) ;;
       onComplete props (PullRequestEvent.id p) ;;
       ret (Normal tt)
   | Normal Parsed.null =>
       (* line 125: [reviewResult.commentBody] on null *)
       ret (Throw TypeError)
   | Normal (Parsed.value rawCommentBody verdict summary) =>
       (* Step 6: format and post the comment *)
       let commentBody :=
         formatGitHubComment (PullRequestEvent.number p) tier rawCommentBody in
       commentId <-
         traced (GitHub.postReviewComment (github props)
                   (PullRequestEvent.repo p) (PullRequestEvent.number p)
                   commentBody (verdictMap (key_of verdict))) ;;
       (* Step 7: persist *)
       on_state (State.recordReview
                   (commit_record w p verdict (commentId_of commentId))) ;;
       match verdict with
       | other_value _ =>
           (* line 148: [reviewResult.verdict.toUpperCase()] *)
           ret (Throw TypeError)
       | string_value _ =>
           emit (console_log (ReviewPR_reviewed (PullRequestEvent.number p)
                                                verdict summary)) ;;
           onComplete props (PullRequestEvent.id p) ;;
           ret (Normal tt)
       end
   end)%proc.

(** ** The App *)

(** [handlePullRequest], lines 188-207. *)
Definition handlePullRequest (event : PullRequestEvent.t) : Proc unit :=
  (reviewed <- read (fun h => State.isReviewed (Heap.state h)
                                               (PullRequestEvent.id event)) ;;
   if reviewed : bool then
     emit (console_log (App_already_reviewed (PullRequestEvent.number event)))
   else
   queued <- read (fun h =>
               existsb (fun q => PullRequestEvent.id q =? PullRequestEvent.id event)
                       (Heap.pendingPRs h)) ;;
   if queued : bool then
     emit (console_log (App_already_queued (PullRequestEvent.number event)))
   else
     emit (console_log (App_queuing (PullRequestEvent.number event))) ;;
     setPendingPRs (fun current => (current ++ [event])%list))%proc.

(** [handleReviewComplete], lines 209-214. *)
Definition handleReviewComplete (prId : Z) : Proc unit :=
  (setPendingPRs (filter (fun q => negb (PullRequestEvent.id q =? prId))) ;;
   emit (console_log (App_removed prId)))%proc.

(** The [For]/[Show] loop, lines 267-281: the pending pull requests for
    which a [ReviewPR] instance exists. *)
Definition shown (h : Heap.t) : list PullRequestEvent.t :=
  filter (fun q => negb (State.isReviewed (Heap.state h) (PullRequestEvent.id q)))
         (Heap.pendingPRs h).

(** The props the App gives to the [ReviewPR] of a pending pull request.
    No [anthropicApiKey] is passed. *)
Definition props_of (w : World.t) (p : PullRequestEvent.t) : ReviewPRProps :=
  {| pr := p;
     github := GitHub.api w;
     anthropicApiKey := None;
     onComplete := handleReviewComplete |}.

(** One run of the pipeline of [p] as the App mounts it. *)
Definition review (w : World.t) (p : PullRequestEvent.t) : Proc (Completion unit) :=
  ReviewPR w (props_of w p).

End Pipeline.

(** ** Sample inputs *)

Definition pr42 : PullRequestEvent.t :=
  {| PullRequestEvent.id := 1001;
     PullRequestEvent.number := 42;
     PullRequestEvent.title := "Add login form";
     PullRequestEvent.author := "alice";
     PullRequestEvent.body := None;
     PullRequestEvent.repo := "acme/shop";
     PullRequestEvent.baseBranch := "main";
     PullRequestEvent.headBranch := "feature/auth";
     PullRequestEvent.diffUrl := "https://github.com/acme/shop/pull/42.diff";
     PullRequestEvent.htmlUrl := "https://github.com/acme/shop/pull/42";
     PullRequestEvent.changedLines := 20;
     PullRequestEvent.createdAt := "2025-01-01T00:00:00Z" |}.

Definition record42 : ReviewRecord.t :=
  {| ReviewRecord.prId := 1001;
     ReviewRecord.prNumber := 42;
     ReviewRecord.repo := "acme/shop";
     ReviewRecord.reviewedAt := "2025-01-01T00:05:00Z";
     ReviewRecord.verdict := approve;
     ReviewRecord.commentId := Some 77 |}.

(** A record whose verdict is a string other than the three verdicts,
    as Step 7 stores it when the parsed answer carries that string. *)
Definition record_unchecked : ReviewRecord.t :=
  {| ReviewRecord.prId := 1002;
     ReviewRecord.prNumber := 43;
     ReviewRecord.repo := "acme/shop";
     ReviewRecord.reviewedAt := "2025-01-01T00:06:00Z";
     ReviewRecord.verdict := string_value "APPROVED";
     ReviewRecord.commentId := Some 78 |}.

(** The store once [StateManager] has rendered and its handler has run. *)
Definition mounted (restored : option (list ReviewRecord.t)) : State.t :=
  State.StateManager_handler (State.StateManager_render (State.loaded restored)).

(** The store once [StateManager] has rendered, its handler not yet run. *)
Definition rendered (restored : option (list ReviewRecord.t)) : State.t :=
  State.StateManager_render (State.loaded restored).

Definition result42 : ReviewResult.t :=
  {| ReviewResult.summary := "Adds a login form";
     ReviewResult.verdict := approve;
     ReviewResult.severity := low;
     ReviewResult.findings := [];
     ReviewResult.positives := ["Clear naming"];
     ReviewResult.commentBody := "Looks good." |}.

(** A parser that knows three JSON texts and rejects every other text:
    the answer [json42], which it reads as [result42], the text [null] and
    the empty object. *)
Definition json42 : string := "{" +++ str dq +++ "verdict" +++ str dq +++ ":"
                              +++ str dq +++ "approve" +++ str dq +++ "}".

Definition parse42 (s : string) : Completion Parsed.t :=
  if String.eqb s json42 then Normal (of_ReviewResult result42)
  else if String.eqb s "null" then Normal Parsed.null
  else if String.eqb s "{}"
       then Normal (Parsed.value "undefined" (other_value "undefined") "undefined")
       else Throw SyntaxError.

Definition prompt42 (p : PullRequestEvent.t) (diff : string) (tier : ReviewTier)
  : string * string := ("You are an expert code reviewer", diff).

Definition comment42 (prNumber : Z) (tier : ReviewTier) (rawCommentBody : string)
  : string := "## AI Code Review" +++ str nl +++ rawCommentBody.

(** Every service answers; the bot has not reviewed the pull request. *)
Definition world_ok : World.t :=
  {| World.botLogin := "review-bot";
     World.listReviews := Normal [ {| GitHubReview.login := Some "bob" |} ];
     World.fetch := Normal {| Response.ok := true; Response.status := 200;
                              Response.text := Normal "diff --git a/x b/x" |};
     World.createReview := Normal 555;
     World.new_Anthropic := Normal tt;
     World.messages_create := Normal [text_block json42];
     World.now := "2025-01-01T00:05:00Z" |}.

(** The bot has already reviewed the pull request. *)
Definition world_commented : World.t :=
  {| World.botLogin := "review-bot";
     World.listReviews := Normal [ {| GitHubReview.login := Some "bob" |};
                                   {| GitHubReview.login := Some "review-bot" |} ];
     World.fetch := World.fetch world_ok;
     World.createReview := World.createReview world_ok;
     World.new_Anthropic := Normal tt;
     World.messages_create := World.messages_create world_ok;
     World.now := World.now world_ok |}.


(** The inference service answers with the JSON text [null]. *)
Definition world_null : World.t :=
  {| World.botLogin := "review-bot";
     World.listReviews := World.listReviews world_ok;
     World.fetch := World.fetch world_ok;
     World.createReview := World.createReview world_ok;
     World.new_Anthropic := Normal tt;
     World.messages_create := Normal [text_block "null"];
     World.now := World.now world_ok |}.

(** The inference service answers with the empty JSON object. *)
Definition world_empty_object : World.t :=
  {| World.botLogin := "review-bot";
     World.listReviews := World.listReviews world_ok;
     World.fetch := World.fetch world_ok;
     World.createReview := World.createReview world_ok;
     World.new_Anthropic := Normal tt;
     World.messages_create := Normal [text_block "{}"];
     World.now := World.now world_ok |}.

Definition heap42 (s : State.t) : Heap.t :=
  {| Heap.state := s; Heap.pendingPRs := [pr42] |}.

(** Delivering a sequence of events to [handlePullRequest]. *)
Fixpoint deliver (events : list PullRequestEvent.t) (h : Heap.t) : Heap.t :=
  match events with
  | [] => h
  | e :: rest => deliver rest (heap_of (handlePullRequest e h))
  end.




(** ** The running system

    The [ReviewPR] instances the [For]/[Show] loop has mounted and whose
    [onMount] has not finished are [running].  A pipeline touches the heap
    only in the synchronous code that follows its last [await], so a run
    acts on the heap in one step, when it finishes.  Which instances the
    runtime keeps or creates anew is not in the source: the relation lets
    it mount an instance for any pull request the loop shows, any number
    of times. *)

Module System.
Record t : Type := mk {
  heap : Heap.t;
  running : list PullRequestEvent.t
}.
End System.

Section Scheduler.

Variable JSON_parse : string -> Completion Parsed.t.
Variable buildReviewPrompt :
  PullRequestEvent.t -> string -> ReviewTier -> string * string.
Variable formatGitHubComment : Z -> ReviewTier -> string -> string.

Inductive step : System.t -> System.t -> Prop :=
| step_deliver (event : PullRequestEvent.t) (h : Heap.t) running :
    step {| System.heap := h; System.running := running |}
         {| System.heap := heap_of (handlePullRequest event h);
            System.running := running |}
| step_mount (p : PullRequestEvent.t) (h : Heap.t) running :
    In p (shown h) ->
    step {| System.heap := h; System.running := running |}
         {| System.heap := h; System.running := p :: running |}
| step_finish (w : World.t) (p : PullRequestEvent.t) (h : Heap.t) before after :
    step {| System.heap := h; System.running := (before ++ p :: after)%list |}
         {| System.heap :=
              heap_of (review JSON_parse buildReviewPrompt formatGitHubComment w p h);
            System.running := (before ++ after)%list |}.

Inductive steps : System.t -> System.t -> Prop :=
| steps_done (sys : System.t) : steps sys sys
| steps_next (sys mid sys' : System.t) :
    step sys mid -> steps mid sys' -> steps sys sys'.

End Scheduler.

(** The system at start-up, once the store is mounted. *)
Definition started (restored : option (list ReviewRecord.t)) : System.t :=
  {| System.heap := {| Heap.state := mounted restored; Heap.pendingPRs := [] |};
     System.running := [] |}.

(** ** The dashboard API, [src/components/http-server.tsx] *)

(** [history.filter(r => r.verdict === v).length] *)
Definition count_verdict (v : Verdict) (history : list ReviewRecord.t) : nat :=
  List.length (filter (fun r => is_verdict v (ReviewRecord.verdict r)) history).

(** The verdict of a record is one of the three verdict strings. *)
Definition known_verdict (r : ReviewRecord.t) : bool :=
  is_verdict approve (ReviewRecord.verdict r)
  || is_verdict request_changes (ReviewRecord.verdict r)
  || is_verdict comment (ReviewRecord.verdict r).

Module Stats.
Record t : Type := mk {
  approve : nat;
  request_changes : nat;
  comment : nat
}.
End Stats.

Module ReviewsResponse.
Record t : Type := mk {
  reviews : list ReviewRecord.t;
  total : nat;
  stats : Stats.t
}.
End ReviewsResponse.

(** The handler of [GET /api/reviews], lines 60-71. *)
Definition api_reviews (s : State.t) : ReviewsResponse.t :=
  let history := State.getReviewHistory s in
  {| ReviewsResponse.reviews := history;
     ReviewsResponse.total := List.length history;
     ReviewsResponse.stats :=
       {| Stats.approve := count_verdict approve history;
          Stats.request_changes := count_verdict request_changes history;
          Stats.comment := count_verdict comment history |} |}.

(** ** Calls into the App

    The two callbacks the App hands out: [onPullRequest] to the Channel and
    [onComplete] to every [ReviewPR]. *)

Inductive AppCall : Type :=
| onPullRequest_call (event : PullRequestEvent.t)
| onComplete_call (prId : Z).

Definition app_call (c : AppCall) : Proc unit :=
  match c with
  | onPullRequest_call event => handlePullRequest event
  | onComplete_call prId => handleReviewComplete prId
  end.

Fixpoint app_calls (cs : list AppCall) (h : Heap.t) : Heap.t :=
  match cs with
  | [] => h
  | c :: rest => app_calls rest (heap_of (app_call c h))
  end.

(** ** Shapes of strings *)

Definition starts_with_space (s : string) : bool :=
  match s with
  | EmptyString => false
  | String c _ => is_space c
  end.

Fixpoint ends_with_space (s : string) : bool :=
  match s with
  | EmptyString => false
  | String c EmptyString => is_space c
  | String _ rest => ends_with_space rest
  end.

Fixpoint all_space (s : string) : bool :=
  match s with
  | EmptyString => true
  | String c rest => is_space c && all_space rest
  end.

Definition backtick : ascii := "096"%char.

(** No character of [s] is [c]. *)
Fixpoint free_of (c : ascii) (s : string) : bool :=
  match s with
  | EmptyString => true
  | String x rest => negb (Ascii.eqb x c) && free_of c rest
  end.

(** ** The webhook receiver, the Channel component

    [hmac_sha256_hex secret payload] is
    [crypto.createHmac("sha256", secret).update(payload).digest("hex")];
    [JSON_parse] is [JSON.parse] on the request body, read at the type the
    handler uses it at.  A [Throw] of [JSON_parse] also stands for a body
    that parses to a value without properties. *)

Module Channel.

(** [payload.pull_request]; [user_login], [base_ref] and [head_ref] are
    [None] when the object they are read from is missing. *)
Module PullRequestPayload.
Record t : Type := mk {
  id : Z;
  number : Z;
  title : string;
  user_login : option string;
  body : option string;
  base_ref : option string;
  head_ref : option string;
  diff_url : string;
  html_url : string;
  additions : option Z;
  deletions : option Z;
  created_at : string
}.
End PullRequestPayload.

(** The webhook payload; [repository_full_name] is [None] when
    [payload.repository] is missing.  The objects that are present carry
    the properties the webhook documents: a [repository] without a
    [full_name], or a [pull_request] without one of the properties read
    from it, is outside the model. *)
Module Payload.
Record t : Type := mk {
  action : option string;
  pull_request : option PullRequestPayload.t;
  repository_full_name : option string
}.
End Payload.

Module IncomingMessage.
Record t : Type := mk {
  method : string;
  url : string;
  x_hub_signature_256 : option string;
  x_github_event : option string;
  chunks : list string
}.
End IncomingMessage.

(** What the handler writes to the response. *)
Inductive ServerResponse : Type :=
| Not_found
| Unauthorized
| OK_ignored
| OK_not_tracked (action : option string)
| OK
| Bad_request.

Definition statusCode (r : ServerResponse) : Z :=
  match r with
  | Not_found => 404
  | Unauthorized => 401
  | OK_ignored | OK_not_tracked _ | OK => 200
  | Bad_request => 400
  end.

Inductive ChannelMsg : Type :=
| Channel_rejected
| Channel_received (number : Z) (title author : string) (changedLines : Z)
| Channel_parse_failed (e : Error).

Record Handled : Type := mkHandled {
  response : ServerResponse;
  console : list ChannelMsg;
  emitted : option PullRequestEvent.t
}.

(** [crypto.timingSafeEqual] on the two buffers: it throws ([None]) when
    their lengths differ. *)
Definition timingSafeEqual (a b : string) : option bool :=
  if Nat.eqb (String.length a) (String.length b)
  then Some (String.eqb a b)
  else None.

(** [x ?? 0] *)
Definition orZero (x : option Z) : Z :=
  match x with Some n => n | None => 0 end.

(** [body += chunk.toString()] over the chunks of the request. *)
Definition body_of (chunks : list string) : string :=
  fold_left String.append chunks EmptyString.

(** The actions the handler tracks, line 75. *)
Definition tracked (action : option string) : bool :=
  match action with
  | Some a => existsb (String.eqb a) ["opened"; "synchronize"; "reopened"]
  | None => false
  end.

(** [event === "pull_request"] on the event header, line 63. *)
Definition is_pull_request (event : option string) : bool :=
  match event with
  | Some name => String.eqb name "pull_request"
  | None => false
  end.

(** Lines 81-98: the event built from the payload.  Reading a property of
    a missing object throws. *)
Definition prEvent_of (payload : Payload.t) : Completion PullRequestEvent.t :=
  match Payload.repository_full_name payload with
  | None => Throw TypeError
  | Some repo =>
      match Payload.pull_request payload with
      | None => Throw TypeError
      | Some pr =>
          match PullRequestPayload.user_login pr,
                PullRequestPayload.base_ref pr,
                PullRequestPayload.head_ref pr with
          | Some login, Some base, Some head =>
              Normal
                {| PullRequestEvent.id := PullRequestPayload.id pr;
                   PullRequestEvent.number := PullRequestPayload.number pr;
                   PullRequestEvent.title := PullRequestPayload.title pr;
                   PullRequestEvent.author := login;
                   PullRequestEvent.body := PullRequestPayload.body pr;
                   PullRequestEvent.repo := repo;
                   PullRequestEvent.baseBranch := base;
                   PullRequestEvent.headBranch := head;
                   PullRequestEvent.diffUrl := PullRequestPayload.diff_url pr;
                   PullRequestEvent.htmlUrl := PullRequestPayload.html_url pr;
                   PullRequestEvent.changedLines :=
                     orZero (PullRequestPayload.additions pr)
                     + orZero (PullRequestPayload.deletions pr);
                   PullRequestEvent.createdAt := PullRequestPayload.created_at pr |}
          | _, _, _ => Throw TypeError
          end
      end
  end.

Section Handler.

Variable hmac_sha256_hex : string -> string -> string.
Variable JSON_parse : string -> Completion Payload.t.

(** [verifySignature], lines 140-159. *)
Definition verifySignature (payload secret : string) (signature : option string)
    : bool :=
  match signature with
  | None => false
  | Some given =>
      if falsy given then false
      else
        let expected := "sha256=" +++ hmac_sha256_hex secret payload in
        match timingSafeEqual given expected with
        | Some equal => equal
        | None => false
        end
  end.

(** The request listener, lines 33-116: the response, the console lines
    and the event handed to [onPullRequest], if any. *)
Definition listener (webhookSecret : string) (req : IncomingMessage.t) : Handled :=
  if negb (String.eqb (IncomingMessage.method req) "POST")
     || negb (String.eqb (IncomingMessage.url req) "/webhook")
  then mkHandled Not_found [] None
  else
    let body := body_of (IncomingMessage.chunks req) in
    if negb (verifySignature body webhookSecret
                             (IncomingMessage.x_hub_signature_256 req))
    then mkHandled Unauthorized [Channel_rejected] None
    else
      if negb (is_pull_request (IncomingMessage.x_github_event req))
      then mkHandled OK_ignored [] None
      else
        match JSON_parse body with
        | Throw e => mkHandled Bad_request [Channel_parse_failed e] None
        | Normal payload =>
            if negb (tracked (Payload.action payload))
            then mkHandled (OK_not_tracked (Payload.action payload)) [] None
            else
              match prEvent_of payload with
              | Throw e => mkHandled Bad_request [Channel_parse_failed e] None
              | Normal prEvent =>
                  mkHandled OK
                    [Channel_received (PullRequestEvent.number prEvent)
                                      (PullRequestEvent.title prEvent)
                                      (PullRequestEvent.author prEvent)
                                      (PullRequestEvent.changedLines prEvent)]
                    (Some prEvent)
              end
        end.

(** The Channel as the App mounts it: [onPullRequest] is
    [handlePullRequest]. *)
Definition serve (webhookSecret : string) (req : IncomingMessage.t)
    : Proc ServerResponse :=
  let handled := listener webhookSecret req in
  match emitted handled with
  | Some prEvent =>
      bind (handlePullRequest prEvent) (fun _ => ret (response handled))
  | None => ret (response handled)
  end.

End Handler.

End Channel.

(** ** The file backend, [src/memory.ts]

    The disk is a table from paths to file contents; [readFile] rejects on
    a path that holds no file.  [join] is [path.join]. *)

Module FileMemory.

Record Disk : Type := mkDisk {
  files : string -> option string
}.

Section Backend.

Variable DeploymentState : Type.
Variable JSON_parse : string -> Completion DeploymentState.
Variable join : string -> string -> string.

Definition path_of (dir stackName : string) : string :=
  join dir (stackName +++ ".json").

(** [getState], lines 8-17: [None] is [null]. *)
Definition getState (dir : string) (d : Disk) (stackName : string)
    : option DeploymentState :=
  match files d (path_of dir stackName) with
  | None => None
  | Some data =>
      match JSON_parse data with
      | Normal state => Some state
      | Throw _ => None
      end
  end.

End Backend.

End FileMemory.

(** ** More sample inputs *)

(** The diff request answers 404. *)
Definition world_not_found : World.t :=
  {| World.botLogin := "review-bot";
     World.listReviews := Normal [];
     World.fetch := Normal {| Response.ok := false; Response.status := 404;
                              Response.text := Normal "Not Found" |};
     World.createReview := Normal 555;
     World.new_Anthropic := Normal tt;
     World.messages_create := Normal [text_block json42];
     World.now := "2025-01-01T00:05:00Z" |}.

(** The inference service is down. *)
Definition world_claude_down : World.t :=
  {| World.botLogin := "review-bot";
     World.listReviews := World.listReviews world_ok;
     World.fetch := World.fetch world_ok;
     World.createReview := Normal 555;
     World.new_Anthropic := Normal tt;
     World.messages_create := Throw (ServiceError 529);
     World.now := World.now world_ok |}.

(** A second pull request. *)
Definition pr43 : PullRequestEvent.t :=
  {| PullRequestEvent.id := 1002;
     PullRequestEvent.number := 43;
     PullRequestEvent.title := "Rework the cart";
     PullRequestEvent.author := "bob";
     PullRequestEvent.body := Some "Large change";
     PullRequestEvent.repo := "acme/shop";
     PullRequestEvent.baseBranch := "main";
     PullRequestEvent.headBranch := "feature/cart";
     PullRequestEvent.diffUrl := "https://github.com/acme/shop/pull/43.diff";
     PullRequestEvent.htmlUrl := "https://github.com/acme/shop/pull/43";
     PullRequestEvent.changedLines := 500;
     PullRequestEvent.createdAt := "2025-01-02T00:00:00Z" |}.

(** ** Sample requests and a sample disk *)

(** A keyed digest standing in for HMAC-SHA256 on the samples. *)
Definition mac42 (secret payload : string) : string := secret +++ ":" +++ payload.

Definition payload42 : Channel.Payload.t :=
  {| Channel.Payload.action := Some "opened";
     Channel.Payload.pull_request :=
       Some {| Channel.PullRequestPayload.id := 1001;
               Channel.PullRequestPayload.number := 42;
               Channel.PullRequestPayload.title := "Add login form";
               Channel.PullRequestPayload.user_login := Some "alice";
               Channel.PullRequestPayload.body := None;
               Channel.PullRequestPayload.base_ref := Some "main";
               Channel.PullRequestPayload.head_ref := Some "feature/auth";
               Channel.PullRequestPayload.diff_url :=
                 "https://github.com/acme/shop/pull/42.diff";
               Channel.PullRequestPayload.html_url :=
                 "https://github.com/acme/shop/pull/42";
               Channel.PullRequestPayload.additions := Some 20;
               Channel.PullRequestPayload.deletions := None;
               Channel.PullRequestPayload.created_at := "2025-01-01T00:00:00Z" |};
     Channel.Payload.repository_full_name := Some "acme/shop" |}.

(** A payload parser that knows one body. *)
Definition parse_payload42 (body : string) : Completion Channel.Payload.t :=
  if String.eqb body "opened #42" then Normal payload42 else Throw SyntaxError.

Definition request42 : Channel.IncomingMessage.t :=
  {| Channel.IncomingMessage.method := "POST";
     Channel.IncomingMessage.url := "/webhook";
     Channel.IncomingMessage.x_hub_signature_256 := Some "sha256=s3cret:opened #42";
     Channel.IncomingMessage.x_github_event := Some "pull_request";
     Channel.IncomingMessage.chunks := ["opened "; "#42"] |}.

(** The same request without its signature header. *)
Definition request42_unsigned : Channel.IncomingMessage.t :=
  {| Channel.IncomingMessage.method := "POST";
     Channel.IncomingMessage.url := "/webhook";
     Channel.IncomingMessage.x_hub_signature_256 := None;
     Channel.IncomingMessage.x_github_event := Some "pull_request";
     Channel.IncomingMessage.chunks := ["opened "; "#42"] |}.

(** A snapshot format on the samples: the state is a text, written behind
    an opening bracket. *)
Definition parse_state42 (data : string) : Completion string :=
  match data with
  | String "[" rest => Normal rest
  | _ => Throw SyntaxError
  end.

Definition join42 (dir name : string) : string := dir +++ "/" +++ name.

Definition disk_empty : FileMemory.Disk :=
  {| FileMemory.files := fun _ => None |}.

(** * Properties *)

(** ** Tier classification *)

Example getReviewTier_0 : getReviewTier 0 = quick.
Proof. reflexivity. Qed.

Example getReviewTier_1000 : getReviewTier 1000 = deep.
Proof. reflexivity. Qed.

(** C3. [getReviewTier] is a total function of the changed-line count with
    thresholds 50 and 300: at most 50 lines give [quick], more than 50 and
    at most 300 give [standard], more than 300 give [deep]; 50, 51, 300 and
    301 fall on the stated sides, and equal inputs give equal tiers. *)
Theorem getReviewTier_thresholds (metric : Z) :
  (metric <= 50 -> getReviewTier metric = quick) /\
  (50 < metric <= 300 -> getReviewTier metric = standard) /\
  (300 < metric -> getReviewTier metric = deep) /\
  getReviewTier 50 = quick /\
  getReviewTier 51 = standard /\
  getReviewTier 300 = standard /\
  getReviewTier 301 = deep /\
  (forall other, other = metric -> getReviewTier other = getReviewTier metric).
Proof.
  unfold getReviewTier.
  repeat split; try reflexivity.
  - intros Hle. apply Z.leb_le in Hle. now rewrite Hle.
  - intros [Hlo Hhi].
    apply Z.leb_gt in Hlo. apply Z.leb_le in Hhi. now rewrite Hlo, Hhi.
  - intros Hlo.
    assert (H50 : (metric <=? 50) = false) by (apply Z.leb_gt; lia).
    apply Z.leb_gt in Hlo. now rewrite H50, Hlo.
  - now intros other ->.
Qed.

Lemma getReviewTier_thresholds_at_120 : getReviewTier 120 = standard.
Proof.
  destruct (getReviewTier_thresholds 120) as (_ & Hstandard & _).
  apply Hstandard. lia.
Defined.

(** ** Admission *)

Lemma pending_has_id (i : Z) (pending : list PullRequestEvent.t) :
  existsb (fun q => PullRequestEvent.id q =? i) pending = true <->
  exists q, In q pending /\ PullRequestEvent.id q = i.
Proof.
  rewrite existsb_exists.
  split; intros (q & Hin & Hq); exists q; split; trivial.
  - now apply Z.eqb_eq.
  - now apply Z.eqb_eq.
Qed.

Lemma handlePullRequest_reviewed (event : PullRequestEvent.t) (h : Heap.t) :
  State.isReviewed (Heap.state h) (PullRequestEvent.id event) = true ->
  handlePullRequest event h =
  (tt, h, [console_log (App_already_reviewed (PullRequestEvent.number event))]).
Proof.
  intros Hrev. unfold handlePullRequest, bind, read. now rewrite Hrev.
Qed.

Lemma handlePullRequest_queued (event : PullRequestEvent.t) (h : Heap.t) :
  State.isReviewed (Heap.state h) (PullRequestEvent.id event) = false ->
  existsb (fun q => PullRequestEvent.id q =? PullRequestEvent.id event)
          (Heap.pendingPRs h) = true ->
  handlePullRequest event h =
  (tt, h, [console_log (App_already_queued (PullRequestEvent.number event))]).
Proof.
  intros Hrev Hq. unfold handlePullRequest, bind, read. now rewrite Hrev, Hq.
Qed.

Lemma handlePullRequest_fresh (event : PullRequestEvent.t) (h : Heap.t) :
  State.isReviewed (Heap.state h) (PullRequestEvent.id event) = false ->
  existsb (fun q => PullRequestEvent.id q =? PullRequestEvent.id event)
          (Heap.pendingPRs h) = false ->
  handlePullRequest event h =
  (tt,
   {| Heap.state := Heap.state h;
      Heap.pendingPRs := (Heap.pendingPRs h ++ [event])%list |},
   [console_log (App_queuing (PullRequestEvent.number event))]).
Proof.
  intros Hrev Hq. unfold handlePullRequest, bind, read. now rewrite Hrev, Hq.
Qed.

Lemma deliver_reviewed (i : Z) (events : list PullRequestEvent.t) (h : Heap.t) :
  State.isReviewed (Heap.state h) i = true ->
  Forall (fun e => PullRequestEvent.id e = i) events ->
  deliver events h = h.
Proof.
  intros Hrev Hall.
  induction Hall as [|e rest He _ IH]; simpl.
  - reflexivity.
  - rewrite handlePullRequest_reviewed by now rewrite He.
    exact IH.
Qed.

Example handlePullRequest_twice :
  Heap.pendingPRs (deliver [pr42; pr42] {| Heap.state := mounted None;
                                           Heap.pendingPRs := [] |}) = [pr42].
Proof. reflexivity. Qed.

(** C1. Admission deduplicates and is final.  [handlePullRequest] leaves
    the heap as it is, so that the pending set and the mounted [ReviewPR]
    instances are unchanged, whenever [isReviewed] holds of the event's id
    or a pending pull request carries the same id; otherwise it appends the
    event to the pending set and changes nothing else.  Once [isReviewed]
    holds of an id, every further delivery of events with that id leaves
    the heap unchanged. *)
Theorem handlePullRequest_admission (event : PullRequestEvent.t) (h : Heap.t) :
  let after := heap_of (handlePullRequest event h) in
  (State.isReviewed (Heap.state h) (PullRequestEvent.id event) = true \/
   (exists q, In q (Heap.pendingPRs h) /\
              PullRequestEvent.id q = PullRequestEvent.id event) ->
   after = h /\
   Heap.pendingPRs after = Heap.pendingPRs h /\
   shown after = shown h) /\
  (State.isReviewed (Heap.state h) (PullRequestEvent.id event) = false ->
   (forall q, In q (Heap.pendingPRs h) ->
              PullRequestEvent.id q <> PullRequestEvent.id event) ->
   Heap.pendingPRs after = (Heap.pendingPRs h ++ [event])%list /\
   Heap.state after = Heap.state h) /\
  (forall later,
     State.isReviewed (Heap.state h) (PullRequestEvent.id event) = true ->
     Forall (fun e => PullRequestEvent.id e = PullRequestEvent.id event) later ->
     deliver (event :: later) h = h).
Proof.
  cbv zeta. split; [|split].
  - intros Hskip.
    assert (Hsame : heap_of (handlePullRequest event h) = h).
    { destruct (State.isReviewed (Heap.state h) (PullRequestEvent.id event)) eqn:Hrev.
      - now rewrite handlePullRequest_reviewed.
      - destruct Hskip as [Habs | Hq]; [discriminate|].
        apply pending_has_id in Hq.
        now rewrite handlePullRequest_queued. }
    now rewrite Hsame.
  - intros Hrev Hnone.
    assert (Hq : existsb (fun q => PullRequestEvent.id q =? PullRequestEvent.id event)
                         (Heap.pendingPRs h) = false).
    { apply not_true_is_false. intros Hq.
      apply pending_has_id in Hq. destruct Hq as (q & Hin & Hid).
      exact (Hnone q Hin Hid). }
    now rewrite handlePullRequest_fresh.
  - intros later Hrev Hall.
    apply (deliver_reviewed (PullRequestEvent.id event)); [exact Hrev|].
    now constructor.
Qed.

Lemma handlePullRequest_admission_pr42 :
  (State.isReviewed (mounted (Some [record42])) (PullRequestEvent.id pr42) = true /\
   heap_of (handlePullRequest pr42 {| Heap.state := mounted (Some [record42]);
                                      Heap.pendingPRs := [] |})
   = {| Heap.state := mounted (Some [record42]); Heap.pendingPRs := [] |}) /\
  Heap.pendingPRs (heap_of (handlePullRequest pr42 {| Heap.state := mounted None;
                                                      Heap.pendingPRs := [] |}))
  = [pr42].
Proof.
  split; [split; [reflexivity|]|].
  - apply (handlePullRequest_admission
             pr42 {| Heap.state := mounted (Some [record42]); Heap.pendingPRs := [] |}).
    left. reflexivity.
  - apply (handlePullRequest_admission
             pr42 {| Heap.state := mounted None; Heap.pendingPRs := [] |}).
    + reflexivity.
    + intros q [].
Defined.

(** ** The store while it is not mounted *)

Lemma isReviewed_unmounted (s : State.t) (prId : Z) :
  State._reviews s = false -> State.isReviewed s prId = false.
Proof. intros H. unfold State.isReviewed. now rewrite H. Qed.

(** C9. While the accessor variable of state.tsx is [null] (before
    [StateManager] has rendered, or after its cleanup) [isReviewed] answers
    false for every id and [getReviewHistory] answers the empty list, both
    as ordinary return values; so an event whose id is not pending is
    queued whatever the store holds, also when it holds a record of that
    id. *)
Theorem unmounted_store_interface (s : State.t) :
  State._reviews s = false ->
  (forall prId, State.isReviewed s prId = false) /\
  State.getReviewHistory s = [] /\
  (forall restored, State._reviews (State.loaded restored) = false) /\
  State._reviews (State.StateManager_cleanup s) = false /\
  (forall pending event,
     (forall q, In q pending ->
                PullRequestEvent.id q <> PullRequestEvent.id event) ->
     Heap.pendingPRs
       (heap_of (handlePullRequest event {| Heap.state := s;
                                            Heap.pendingPRs := pending |}))
     = (pending ++ [event])%list).
Proof.
  intros Hnull. repeat split.
  - intros prId. now apply isReviewed_unmounted.
  - unfold State.getReviewHistory. now rewrite Hnull.
  - intros pending event Hfresh.
    rewrite handlePullRequest_fresh; simpl.
    + reflexivity.
    + now apply isReviewed_unmounted.
    + apply not_true_is_false. intros Hq.
      apply pending_has_id in Hq. destruct Hq as (q & Hin & Hid).
      exact (Hfresh q Hin Hid).
Qed.

Lemma unmounted_store_requeues_pr42 :
  In record42 (State.records (State.loaded (Some [record42]))) /\
  State.isReviewed (State.loaded (Some [record42])) 1001 = false /\
  Heap.pendingPRs
    (heap_of (handlePullRequest pr42 {| Heap.state := State.loaded (Some [record42]);
                                        Heap.pendingPRs := [] |}))
  = [pr42].
Proof.
  destruct (unmounted_store_interface (State.loaded (Some [record42])) eq_refl)
    as (Hrev & _ & _ & _ & Hqueued).
  split; [now left|]. split.
  - apply Hrev.
  - apply (Hqueued [] pr42). intros q [].
Defined.

(** ** The store under [recordReview] *)

Lemma records_recordReview (r : ReviewRecord.t) (s : State.t) :
  State.records (fst (State.recordReview r s)) =
  if State._setOutputs s then (State.records s ++ [r])%list else State.records s.
Proof.
  unfold State.recordReview, State.records.
  now destruct (State._setOutputs s).
Qed.

Lemma flags_recordReview (r : ReviewRecord.t) (s : State.t) :
  State._setOutputs (fst (State.recordReview r s)) = State._setOutputs s /\
  State._reviews (fst (State.recordReview r s)) = State._reviews s.
Proof.
  unfold State.recordReview.
  destruct (State._setOutputs s) eqn:Hset; simpl; auto.
Qed.

Lemma records_recordReviews (rs : list ReviewRecord.t) (s : State.t) :
  State.records (State.recordReviews rs s) =
  if State._setOutputs s then (State.records s ++ rs)%list else State.records s.
Proof.
  revert s. induction rs as [|r rs IH]; intros s; simpl.
  - destruct (State._setOutputs s); [now rewrite app_nil_r | reflexivity].
  - rewrite IH, records_recordReview.
    destruct (flags_recordReview r s) as [-> _].
    destruct (State._setOutputs s); [|reflexivity].
    now rewrite <- app_assoc.
Qed.

Lemma reviews_flag_recordReviews (rs : list ReviewRecord.t) (s : State.t) :
  State._reviews (State.recordReviews rs s) = State._reviews s.
Proof.
  revert s. induction rs as [|r rs IH]; intros s; simpl; [reflexivity|].
  rewrite IH. apply flags_recordReview.
Qed.

Lemma isReviewed_records (s : State.t) (prId : Z) :
  State.isReviewed s prId = true <->
  State._reviews s = true /\ In prId (State.ids s).
Proof.
  unfold State.isReviewed, State.ids, State.records.
  destruct (State._reviews s); simpl.
  - rewrite existsb_exists, in_map_iff.
    split.
    + intros (r & Hin & Heq). apply Z.eqb_eq in Heq. split; [reflexivity|].
      now exists r.
    + intros (_ & r & Heq & Hin). exists r. split; [exact Hin|].
      now apply Z.eqb_eq.
  - split; [discriminate | now intros [? _]].
Qed.

Lemma isReviewed_recordReviews (rs : list ReviewRecord.t) (s : State.t) (prId : Z) :
  State.isReviewed s prId = true ->
  State.isReviewed (State.recordReviews rs s) prId = true.
Proof.
  rewrite !isReviewed_records. intros [Hacc Hin].
  split.
  - now rewrite reviews_flag_recordReviews.
  - unfold State.ids in *. rewrite records_recordReviews.
    destruct (State._setOutputs s); [|exact Hin].
    rewrite map_app. apply in_or_app. now left.
Qed.

Example recordReview_mounted :
  State.records (fst (State.recordReview record42 (mounted None))) = [record42].
Proof. reflexivity. Qed.

(** C10, as stated, fails while the setter variable is [null]: the call
    returns without placing the record. *)
Lemma recordReview_unmounted_drops :
  State._setOutputs (rendered None) = false /\
  State.records (fst (State.recordReview record42 (rendered None))) = [] /\
  State.records (fst (State.recordReview record42 (rendered None)))
  <> (State.records (rendered None) ++ [record42])%list.
Proof.
  split; [reflexivity|]. split; [reflexivity|].
  simpl. discriminate.
Qed.

(** C10, amended.  [recordReview] never removes or reorders: the records
    held before a call are a prefix of those held after it.  With the
    setter mounted the new record is placed at the end; with the setter
    [null] the store is left as it is.  Hence once [isReviewed] holds of an
    id it holds after any further sequence of [recordReview] calls. *)
Theorem recordReview_append_only (r : ReviewRecord.t) (s : State.t) :
  let after := fst (State.recordReview r s) in
  (State._setOutputs s = true ->
   State.records after = (State.records s ++ [r])%list) /\
  (State._setOutputs s = false -> after = s) /\
  (exists added, State.records after = (State.records s ++ added)%list) /\
  (forall rs prId,
     State.isReviewed s prId = true ->
     State.isReviewed (State.recordReviews rs s) prId = true).
Proof.
  cbv zeta. repeat split.
  - intros Hset. now rewrite records_recordReview, Hset.
  - intros Hset. unfold State.recordReview. now rewrite Hset.
  - rewrite records_recordReview.
    case (State._setOutputs s).
    + now exists [r].
    + exists []. now rewrite app_nil_r.
  - intros rs prId. apply isReviewed_recordReviews.
Qed.

Lemma recordReview_append_only_record42 :
  State.records (fst (State.recordReview record42 (mounted (Some [record42]))))
  = [record42; record42] /\
  State.isReviewed
    (State.recordReviews [record42] (mounted (Some [record42]))) 1001 = true.
Proof.
  destruct (recordReview_append_only record42 (mounted (Some [record42])))
    as (Happend & _ & _ & Hstays).
  split.
  - apply Happend. reflexivity.
  - apply Hstays. reflexivity.
Defined.

(** ** One record per id *)

Lemma NoDup_app_iff {A : Type} (l1 l2 : list A) :
  NoDup (l1 ++ l2) <->
  NoDup l1 /\ NoDup l2 /\ (forall a, In a l1 -> ~ In a l2).
Proof.
  split.
  - intros H. split; [|split].
    + now apply NoDup_app_remove_r in H.
    + now apply NoDup_app_remove_l in H.
    + induction l1 as [|x l1 IH]; intros a Hin1 Hin2; simpl in *.
      * contradiction.
      * apply NoDup_cons_iff in H. destruct H as [Hx Hrest].
        destruct Hin1 as [-> | Hin1].
        -- apply Hx. apply in_or_app. now right.
        -- exact (IH Hrest a Hin1 Hin2).
  - intros (H1 & H2 & Hdisj). now apply NoDup_app.
Qed.

Lemma ids_recordReviews (rs : list ReviewRecord.t) (s : State.t) :
  State._setOutputs s = true ->
  State.ids (State.recordReviews rs s) =
  (State.ids s ++ map ReviewRecord.prId rs)%list.
Proof.
  intros Hset. unfold State.ids.
  now rewrite records_recordReviews, Hset, map_app.
Qed.

(** C2, as stated, fails: two commits of one id leave two entries. *)
Lemma recordReview_twice_duplicates :
  State.ids (State.recordReviews [record42; record42] (mounted None)) = [1001; 1001] /\
  ~ NoDup (State.ids (State.recordReviews [record42; record42] (mounted None))).
Proof.
  split; [reflexivity|].
  intros Hnodup. simpl in Hnodup.
  apply NoDup_cons_iff in Hnodup. destruct Hnodup as [Hnotin _].
  apply Hnotin. now left.
Qed.

(** C2, amended.  [recordReview] appends without looking at the id.  On a
    mounted store the ids held after a sequence of calls are the ids held
    before followed by the committed ids, so the store holds at most one
    record per id exactly when it did before, the committed ids are
    pairwise distinct and none of them was already present; a commit for
    an id already present adds a second entry for it. *)
Theorem recordReview_uniqueness (rs : list ReviewRecord.t) (s : State.t) :
  State._setOutputs s = true ->
  State.ids (State.recordReviews rs s) =
    (State.ids s ++ map ReviewRecord.prId rs)%list /\
  (NoDup (State.ids (State.recordReviews rs s)) <->
   NoDup (State.ids s) /\
   NoDup (map ReviewRecord.prId rs) /\
   (forall i, In i (State.ids s) -> ~ In i (map ReviewRecord.prId rs))) /\
  (forall r, In (ReviewRecord.prId r) (State.ids s) ->
             ~ NoDup (State.ids (fst (State.recordReview r s)))).
Proof.
  intros Hset. split; [|split].
  - now apply ids_recordReviews.
  - rewrite ids_recordReviews by exact Hset. apply NoDup_app_iff.
  - intros r Hin Hnodup.
    change (fst (State.recordReview r s)) with (State.recordReviews [r] s) in Hnodup.
    rewrite ids_recordReviews in Hnodup by exact Hset.
    apply NoDup_app_iff in Hnodup. destruct Hnodup as (_ & _ & Hdisj).
    apply (Hdisj _ Hin). now left.
Qed.

Lemma recordReview_uniqueness_record42 :
  State.ids (State.recordReviews [record42] (mounted None)) = [1001] /\
  NoDup (State.ids (State.recordReviews [record42] (mounted None))).
Proof.
  destruct (recordReview_uniqueness [record42] (mounted None) eq_refl)
    as (Hids & Hiff & _).
  split; [exact Hids|].
  apply Hiff. simpl. split; [constructor|]. split.
  - constructor; [intros []|constructor].
  - intros i [].
Defined.

(** ** The pipeline *)

Ltac run_proc :=
  unfold review, ReviewPR, props_of, handleReviewComplete, bind, traced, emit,
         on_state, setPendingPRs, heap_of, trace_of;
  cbn [pr github anthropicApiKey onComplete GitHub.api
       GitHub.botAlreadyCommented GitHub.fetchDiff GitHub.postReviewComment
       fst snd Heap.state Heap.pendingPRs].

Section PipelineProperties.

Variable JSON_parse : string -> Completion Parsed.t.
Variable buildReviewPrompt :
  PullRequestEvent.t -> string -> ReviewTier -> string * string.
Variable formatGitHubComment : Z -> ReviewTier -> string -> string.

Lemma parseReviewResult_returns (raw : string) (p : PullRequestEvent.t) :
  fst (parseReviewResult JSON_parse raw p) =
  Normal match JSON_parse (cleaned raw) with
         | Normal parsed => parsed
         | Throw _ => of_ReviewResult (fallback raw p)
         end.
Proof.
  unfold parseReviewResult.
  now destruct (JSON_parse (cleaned raw)).
Qed.

Lemma callClaude_returns (w : World.t) (apiKey : option string)
    (p : PullRequestEvent.t) (tier : ReviewTier) (system user : string)
    (block : ContentBlock) (rest : list ContentBlock) :
  World.new_Anthropic w = Normal tt ->
  World.messages_create w = Normal (block :: rest) ->
  fst (callClaude JSON_parse w apiKey p tier system user) =
  fst (parseReviewResult JSON_parse (raw_of block) p).
Proof.
  intros Hclient Hmessage. unfold callClaude.
  rewrite Hclient, Hmessage.
  now destruct (parseReviewResult JSON_parse (raw_of block) p).
Qed.

(** [verdictMap] on the three verdicts of the declared type. *)
Lemma verdictMap_verdict (v : Verdict) :
  verdictMap (key_of (verdict_value v)) = event_of v.
Proof. now destruct v. Qed.

(** A run in which the bot has not commented, the diff is not empty and
    the parsed answer is not [null] reaches Step 7: its outcome, the heap
    it leaves and the end of its trace. *)
Lemma review_reaches_step7 (w : World.t) (p : PullRequestEvent.t) (h : Heap.t)
    (block : ContentBlock) (rest : list ContentBlock)
    (body : string) (verdict : VerdictValue) (summary : string) :
  fst (GitHub.botAlreadyCommented_impl w (PullRequestEvent.repo p)
                                       (PullRequestEvent.number p)) = false ->
  falsy (fst (GitHub.fetchDiff_impl w (PullRequestEvent.diffUrl p))) = false ->
  World.new_Anthropic w = Normal tt ->
  World.messages_create w = Normal (block :: rest) ->
  fst (parseReviewResult JSON_parse (raw_of block) p)
    = Normal (Parsed.value body verdict summary) ->
  let posted :=
    GitHub.postReviewComment_impl w (PullRequestEvent.repo p)
      (PullRequestEvent.number p)
      (formatGitHubComment (PullRequestEvent.number p)
         (getReviewTier (PullRequestEvent.changedLines p)) body)
      (verdictMap (key_of verdict)) in
  let record := commit_record w p verdict (commentId_of (fst posted)) in
  exists before : list Event,
    review JSON_parse buildReviewPrompt formatGitHubComment w p h =
    (settles verdict,
     {| Heap.state := fst (State.recordReview record (Heap.state h));
        Heap.pendingPRs :=
          match verdict with
          | string_value _ =>
              filter (fun q => negb (PullRequestEvent.id q =? PullRequestEvent.id p))
                     (Heap.pendingPRs h)
          | other_value _ => Heap.pendingPRs h
          end |},
     (before
      ++ snd posted
      ++ snd (State.recordReview record (Heap.state h))
      ++ match verdict with
         | string_value _ =>
             [console_log (ReviewPR_reviewed (PullRequestEvent.number p)
                                             verdict summary);
              console_log (App_removed (PullRequestEvent.id p))]
         | other_value _ => []
         end)%list).
Proof.
  intros Hbot Hdiff Hclient Hmessage Hparsed. cbv zeta.
  run_proc.
  rewrite Hbot, Hdiff.
  destruct (buildReviewPrompt p _ _) as [system user].
  pose proof (callClaude_returns w None p
                (getReviewTier (PullRequestEvent.changedLines p))
                system user block rest Hclient Hmessage) as Hcall.
  rewrite Hparsed in Hcall.
  destruct (callClaude JSON_parse w None p
              (getReviewTier (PullRequestEvent.changedLines p)) system user)
    as [attempt t_call].
  cbn [fst] in Hcall. subst attempt. cbn [fst snd].
  destruct (GitHub.postReviewComment_impl w _ _ _ _) as [commentId t_post].
  cbn [fst snd].
  destruct (State.recordReview _ (Heap.state h)) as [s t_state].
  exists (console_log (ReviewPR_starting (PullRequestEvent.number p)
                                         (PullRequestEvent.title p))
          :: snd (GitHub.botAlreadyCommented_impl w (PullRequestEvent.repo p)
                    (PullRequestEvent.number p))
          ++ snd (GitHub.fetchDiff_impl w (PullRequestEvent.diffUrl p))
          ++ console_log (ReviewPR_tier (PullRequestEvent.number p)
                            (PullRequestEvent.changedLines p)
                            (getReviewTier (PullRequestEvent.changedLines p)))
          :: t_call)%list.
  destruct verdict; cbn; repeat (rewrite <- app_assoc; cbn);
    rewrite ?app_nil_r; reflexivity.
Qed.

(** The same for a parsed answer of the declared type. *)
Lemma review_reaches_commit (w : World.t) (p : PullRequestEvent.t) (h : Heap.t)
    (block : ContentBlock) (rest : list ContentBlock)
    (reviewResult : ReviewResult.t) :
  fst (GitHub.botAlreadyCommented_impl w (PullRequestEvent.repo p)
                                       (PullRequestEvent.number p)) = false ->
  falsy (fst (GitHub.fetchDiff_impl w (PullRequestEvent.diffUrl p))) = false ->
  World.new_Anthropic w = Normal tt ->
  World.messages_create w = Normal (block :: rest) ->
  fst (parseReviewResult JSON_parse (raw_of block) p) = Normal reviewResult ->
  let posted :=
    GitHub.postReviewComment_impl w (PullRequestEvent.repo p)
      (PullRequestEvent.number p)
      (formatGitHubComment (PullRequestEvent.number p)
         (getReviewTier (PullRequestEvent.changedLines p))
         (ReviewResult.commentBody reviewResult))
      (ReviewResult.verdict reviewResult) in
  let record := record_of w p reviewResult (commentId_of (fst posted)) in
  heap_of (review JSON_parse buildReviewPrompt formatGitHubComment w p h) =
    {| Heap.state := fst (State.recordReview record (Heap.state h));
       Heap.pendingPRs :=
         filter (fun q => negb (PullRequestEvent.id q =? PullRequestEvent.id p))
                (Heap.pendingPRs h) |} /\
  exists before : list Event,
    trace_of (review JSON_parse buildReviewPrompt formatGitHubComment w p h) =
      (before
       ++ snd posted
       ++ snd (State.recordReview record (Heap.state h))
       ++ [console_log (ReviewPR_reviewed (PullRequestEvent.number p)
                                          (ReviewResult.verdict reviewResult)
                                          (ReviewResult.summary reviewResult));
           console_log (App_removed (PullRequestEvent.id p))])%list.
Proof.
  intros Hbot Hdiff Hclient Hmessage Hparsed. cbv zeta.
  destruct (review_reaches_step7 w p h block rest _ _ _
              Hbot Hdiff Hclient Hmessage Hparsed) as (before & Hrun).
  cbv zeta in Hrun. rewrite verdictMap_verdict in Hrun.
  rewrite Hrun. unfold heap_of, trace_of, record_of. cbn [fst snd verdict_value].
  split; [reflexivity|]. now exists before.
Qed.

(** Every run is one of these: it touches the store at most once, through
    [recordReview] of a record for the pull request, nothing else in the
    run depends on the heap, and either it completes, its last act being
    the call of [onComplete], or it throws and leaves the pending set as
    it was. *)
Lemma review_shape (w : World.t) (p : PullRequestEvent.t) :
  exists (before after : list Event) (commit : option ReviewRecord.t)
         (completes : bool),
    (forall record, commit = Some record ->
                    ReviewRecord.prId record = PullRequestEvent.id p) /\
    (if completes
     then exists front,
            after = (front ++ [console_log (App_removed (PullRequestEvent.id p))])%list
     else after = []) /\
    forall h : Heap.t,
      review JSON_parse buildReviewPrompt formatGitHubComment w p h =
      (if completes then Normal tt else Throw TypeError,
       {| Heap.state :=
            match commit with
            | Some record => fst (State.recordReview record (Heap.state h))
            | None => Heap.state h
            end;
          Heap.pendingPRs :=
            if completes
            then filter (fun q => negb (PullRequestEvent.id q
                                        =? PullRequestEvent.id p))
                        (Heap.pendingPRs h)
            else Heap.pendingPRs h |},
       (before
        ++ match commit with
           | Some record => snd (State.recordReview record (Heap.state h))
           | None => []
           end
        ++ after)%list).
Proof.
  destruct (GitHub.botAlreadyCommented_impl w (PullRequestEvent.repo p)
              (PullRequestEvent.number p)) as [commented t_bot] eqn:Hbot.
  destruct commented.
  { eexists (_ :: t_bot)%list, [_; _], None, true.
    split; [discriminate|]. split; [now eexists [_]|].
    intros h. run_proc. rewrite Hbot. cbn. reflexivity. }
  destruct (GitHub.fetchDiff_impl w (PullRequestEvent.diffUrl p))
    as [diff t_diff] eqn:Hfetch.
  destruct (falsy diff) eqn:Hdiff.
  { eexists (_ :: t_bot ++ t_diff)%list, [_; _], None, true.
    split; [discriminate|]. split; [now eexists [_]|].
    intros h. run_proc. rewrite Hbot, Hfetch. cbn.
    rewrite Hdiff. cbn. now rewrite <- app_assoc. }
  destruct (buildReviewPrompt p diff
              (getReviewTier (PullRequestEvent.changedLines p)))
    as [system user] eqn:Hprompt.
  destruct (callClaude JSON_parse w None p
              (getReviewTier (PullRequestEvent.changedLines p)) system user)
    as [[[|body verdict summary] | err] t_call] eqn:Hcall.
  - eexists (_ :: t_bot ++ t_diff ++ _ :: t_call)%list, [], None, false.
    split; [discriminate|]. split; [reflexivity|].
    intros [s pending]. run_proc. rewrite Hbot, Hfetch. cbn.
    rewrite Hdiff, Hprompt, Hcall. cbn.
    repeat (rewrite <- app_assoc; cbn). now rewrite !app_nil_r.
  - destruct (GitHub.postReviewComment_impl w (PullRequestEvent.repo p)
                (PullRequestEvent.number p)
                (formatGitHubComment (PullRequestEvent.number p)
                   (getReviewTier (PullRequestEvent.changedLines p)) body)
                (verdictMap (key_of verdict)))
      as [commentId t_post] eqn:Hpost.
    destruct verdict as [s | key]; cbn [key_of] in Hpost.
    + eexists (_ :: t_bot ++ t_diff ++ _ :: t_call ++ t_post)%list, [_; _],
              (Some (commit_record w p (string_value s) (commentId_of commentId))),
              true.
      split; [now intros record [= <-]|]. split; [now eexists [_]|].
      intros h. run_proc. rewrite Hbot, Hfetch. cbn.
      rewrite Hdiff, Hprompt, Hcall. cbn. rewrite Hpost. cbn.
      destruct (State.recordReview _ (Heap.state h)) as [s' t_state]. cbn.
      repeat (rewrite <- app_assoc; cbn). reflexivity.
    + eexists (_ :: t_bot ++ t_diff ++ _ :: t_call ++ t_post)%list, [],
              (Some (commit_record w p (other_value key) (commentId_of commentId))),
              false.
      split; [now intros record [= <-]|]. split; [reflexivity|].
      intros h. run_proc. rewrite Hbot, Hfetch. cbn.
      rewrite Hdiff, Hprompt, Hcall. cbn. rewrite Hpost. cbn.
      destruct (State.recordReview _ (Heap.state h)) as [s' t_state]. cbn.
      repeat (rewrite <- app_assoc; cbn). now rewrite !app_nil_r.
  - eexists (_ :: t_bot ++ t_diff ++ _ :: t_call)%list, [_; _], None, true.
    split; [discriminate|]. split; [now eexists [_]|].
    intros h. run_proc. rewrite Hbot, Hfetch. cbn.
    rewrite Hdiff, Hprompt, Hcall. cbn.
    repeat (rewrite <- app_assoc; cbn). reflexivity.
Qed.

Lemma botAlreadyCommented_found (w : World.t) (repo : string) (prNumber : Z) :
  fst (GitHub.botAlreadyCommented_impl w repo prNumber) = true ->
  snd (GitHub.botAlreadyCommented_impl w repo prNumber) =
  [call_listReviews (GitHub.owner_of repo) (GitHub.repoName_of repo) prNumber].
Proof.
  unfold GitHub.botAlreadyCommented_impl.
  destruct (falsy (World.botLogin w)); [discriminate|].
  now destruct (World.listReviews w).
Qed.

(** C4, amended.  When [botAlreadyCommented] reports an existing review,
    the pipeline makes no further call (no diff is fetched, nothing is
    generated or posted) and commits nothing: the store is left as it is
    and the pull request is removed from the pending set. *)
Theorem review_already_commented
    (w : World.t) (p : PullRequestEvent.t) (h : Heap.t) :
  fst (GitHub.botAlreadyCommented_impl w (PullRequestEvent.repo p)
                                       (PullRequestEvent.number p)) = true ->
  let run := review JSON_parse buildReviewPrompt formatGitHubComment w p h in
  Heap.state (heap_of run) = Heap.state h /\
  Heap.pendingPRs (heap_of run) =
    filter (fun q => negb (PullRequestEvent.id q =? PullRequestEvent.id p))
           (Heap.pendingPRs h) /\
  trace_of run =
    [console_log (ReviewPR_starting (PullRequestEvent.number p)
                                    (PullRequestEvent.title p));
     call_listReviews (GitHub.owner_of (PullRequestEvent.repo p))
                      (GitHub.repoName_of (PullRequestEvent.repo p))
                      (PullRequestEvent.number p);
     console_log (ReviewPR_skipping (PullRequestEvent.number p));
     console_log (App_removed (PullRequestEvent.id p))] /\
  existsb is_call_fetch (trace_of run) = false /\
  existsb is_call_messages_create (trace_of run) = false /\
  existsb is_call_createReview (trace_of run) = false.
Proof.
  intros Hbot. cbv zeta.
  assert (Hrun : review JSON_parse buildReviewPrompt formatGitHubComment w p h =
                 (Normal tt,
                  {| Heap.state := Heap.state h;
                     Heap.pendingPRs :=
                       filter (fun q => negb (PullRequestEvent.id q
                                              =? PullRequestEvent.id p))
                              (Heap.pendingPRs h) |},
                  [console_log (ReviewPR_starting (PullRequestEvent.number p)
                                                  (PullRequestEvent.title p));
                   call_listReviews (GitHub.owner_of (PullRequestEvent.repo p))
                                    (GitHub.repoName_of (PullRequestEvent.repo p))
                                    (PullRequestEvent.number p);
                   console_log (ReviewPR_skipping (PullRequestEvent.number p));
                   console_log (App_removed (PullRequestEvent.id p))])).
  { run_proc. rewrite Hbot, (botAlreadyCommented_found _ _ _ Hbot). reflexivity. }
  rewrite Hrun. unfold heap_of, trace_of. cbn. tauto.
Qed.






(** X28. The fallback of [parseReviewResult]: when [JSON.parse] throws, the
    function warns and returns the object literal of lines 175-182, whose
    verdict is [comment], whose severity is [low], whose findings are
    empty and whose comment body ends with the raw text; the [try] block
    of Step 5 then yields that result, and the pipeline carries it to
    Step 7. *)
Theorem parseReviewResult_fallback (raw : string) (p : PullRequestEvent.t) (e : Error) :
  JSON_parse (cleaned raw) = Throw e ->
  parseReviewResult JSON_parse raw p =
    (Normal (of_ReviewResult (fallback raw p)),
     [console_warn (ReviewPR_parse_fallback (PullRequestEvent.number p))]) /\
  ReviewResult.verdict (fallback raw p) = comment /\
  ReviewResult.severity (fallback raw p) = low /\
  ReviewResult.findings (fallback raw p) = [] /\
  (exists lead, ReviewResult.commentBody (fallback raw p) = lead +++ raw) /\
  (forall w apiKey tier system user rest,
     World.new_Anthropic w = Normal tt ->
     World.messages_create w = Normal (text_block raw :: rest) ->
     fst (callClaude JSON_parse w apiKey p tier system user) =
     Normal (fallback raw p)) /\
  (forall w h rest,
     fst (GitHub.botAlreadyCommented_impl w (PullRequestEvent.repo p)
                                          (PullRequestEvent.number p)) = false ->
     falsy (fst (GitHub.fetchDiff_impl w (PullRequestEvent.diffUrl p))) = false ->
     World.new_Anthropic w = Normal tt ->
     World.messages_create w = Normal (text_block raw :: rest) ->
     exists commentId,
       Heap.state
         (heap_of (review JSON_parse buildReviewPrompt formatGitHubComment w p h))
       = fst (State.recordReview (record_of w p (fallback raw p) commentId)
                                 (Heap.state h))).
Proof.
  intros Hthrow.
  assert (Hfallback : fst (parseReviewResult JSON_parse raw p)
                      = Normal (fallback raw p)).
  { rewrite parseReviewResult_returns. now rewrite Hthrow. }
  split; [unfold parseReviewResult; now rewrite Hthrow|].
  split; [reflexivity|]. split; [reflexivity|]. split; [reflexivity|].
  split; [|split].
  - exists ("I reviewed this PR but encountered an issue formatting the structured output. Here's the raw analysis:"
            +++ str nl +++ str nl).
    reflexivity.
  - intros w apiKey tier system user rest Hclient Hmessage.
    now rewrite (callClaude_returns w apiKey p tier system user
                   (text_block raw) rest Hclient Hmessage).
  - intros w h rest Hbot Hdiff Hclient Hmessage.
    destruct (review_reaches_commit w p h (text_block raw) rest (fallback raw p)
                Hbot Hdiff Hclient Hmessage Hfallback) as (Hheap & _).
    rewrite Hheap. cbn. eexists. reflexivity.
Qed.

End PipelineProperties.

(** ** The pipeline on the sample inputs *)

Example cleaned_fenced :
  cleaned ("```json" +++ str nl +++ json42 +++ str nl +++ "```" +++ str nl) = json42.
Proof. reflexivity. Qed.

Example parseReviewResult_fenced :
  fst (parseReviewResult parse42
         ("```json" +++ str nl +++ json42 +++ str nl +++ "```") pr42)
  = Normal result42.
Proof. reflexivity. Qed.

Example review_ok_records :
  State.records
    (Heap.state (heap_of (review parse42 prompt42 comment42 world_ok pr42
                                 (heap42 (mounted None)))))
  = [ {| ReviewRecord.prId := 1001;
         ReviewRecord.prNumber := 42;
         ReviewRecord.repo := "acme/shop";
         ReviewRecord.reviewedAt := "2025-01-01T00:05:00Z";
         ReviewRecord.verdict := approve;
         ReviewRecord.commentId := Some 555 |} ].
Proof. reflexivity. Qed.

(** C4, as stated, fails: the bot has already reviewed the pull request,
    the run ends, and the store holds no record of it. *)
Lemma review_already_commented_records_nothing :
  fst (GitHub.botAlreadyCommented_impl world_commented "acme/shop" 42) = true /\
  State.records
    (Heap.state (heap_of (review parse42 prompt42 comment42 world_commented pr42
                                 (heap42 (mounted None))))) = [] /\
  State.isReviewed
    (Heap.state (heap_of (review parse42 prompt42 comment42 world_commented pr42
                                 (heap42 (mounted None))))) 1001 = false.
Proof. repeat split. Qed.

Lemma review_already_commented_pr42 :
  fst (GitHub.botAlreadyCommented_impl world_commented "acme/shop" 42) = true /\
  Heap.state (heap_of (review parse42 prompt42 comment42 world_commented pr42
                              (heap42 (mounted None)))) = mounted None.
Proof.
  split; [reflexivity|].
  apply (review_already_commented parse42 prompt42 comment42
           world_commented pr42 (heap42 (mounted None))).
  reflexivity.
Defined.





Lemma parseReviewResult_fallback_not_json :
  parse42 (cleaned "Looks fine to me") = Throw SyntaxError /\
  parseReviewResult parse42 "Looks fine to me" pr42 =
  (Normal (of_ReviewResult (fallback "Looks fine to me" pr42)),
   [console_warn (ReviewPR_parse_fallback 42)]).
Proof.
  split; [reflexivity|].
  apply (parseReviewResult_fallback parse42 prompt42 comment42
           "Looks fine to me" pr42 SyntaxError).
  reflexivity.
Defined.

(** C8.  The answer [null] of the inference service is JSON, so
    [JSON.parse] returns it and [parseReviewResult] hands it on as it is:
    no fallback is built and the value returned is no [ReviewResult].
    The run then throws where it reads [reviewResult.commentBody], outside
    the [try] block: the inference call has been made, nothing is posted
    or recorded, [onComplete] is not called and the pull request stays
    pending.  The answer [{}] is returned as it is too: a record without
    a verdict is committed, then the run throws at line 148, and the pull
    request stays pending. *)
Theorem parseReviewResult_null_unchecked :
  parseReviewResult parse42 "null" pr42 = (Normal Parsed.null, []) /\
  (forall result : ReviewResult.t,
     fst (parseReviewResult parse42 "null" pr42)
     <> Normal (of_ReviewResult result)) /\
  (let run := review parse42 prompt42 comment42 world_null pr42
                     (heap42 (mounted None)) in
   fst (fst run) = Throw TypeError /\
   heap_of run = heap42 (mounted None) /\
   existsb is_call_messages_create (trace_of run) = true /\
   existsb is_call_createReview (trace_of run) = false /\
   existsb (is_removed_log 1001) (trace_of run) = false) /\
  (let run := review parse42 prompt42 comment42 world_empty_object pr42
                     (heap42 (mounted None)) in
   fst (fst run) = Throw TypeError /\
   map ReviewRecord.verdict (State.records (Heap.state (heap_of run)))
     = [other_value "undefined"] /\
   Heap.pendingPRs (heap_of run) = [pr42] /\
   existsb is_reviewed_log (trace_of run) = false /\
   existsb (is_removed_log 1001) (trace_of run) = false).
Proof.
  split; [reflexivity|]. split; [discriminate|].
  split; repeat split.
Qed.

(** ** The running system *)

Lemma NoDup_map_filter {A B : Type} (f : A -> B) (keep : A -> bool) (l : list A) :
  NoDup (map f l) -> NoDup (map f (filter keep l)).
Proof.
  induction l as [|a l IH]; simpl; intros Hnodup.
  - constructor.
  - apply NoDup_cons_iff in Hnodup. destruct Hnodup as [Hnotin Hrest].
    destruct (keep a); simpl; [|now apply IH].
    constructor; [|now apply IH].
    intros Hin. apply Hnotin.
    apply in_map_iff in Hin. destruct Hin as (x & Hfx & Hx).
    apply filter_In in Hx. apply in_map_iff. exists x. tauto.
Qed.

Lemma handlePullRequest_heap (event : PullRequestEvent.t) (h : Heap.t) :
  heap_of (handlePullRequest event h) = h \/
  (heap_of (handlePullRequest event h) =
     {| Heap.state := Heap.state h;
        Heap.pendingPRs := (Heap.pendingPRs h ++ [event])%list |} /\
   ~ In (PullRequestEvent.id event) (map PullRequestEvent.id (Heap.pendingPRs h))).
Proof.
  destruct (State.isReviewed (Heap.state h) (PullRequestEvent.id event)) eqn:Hrev.
  - left. now rewrite handlePullRequest_reviewed.
  - destruct (existsb (fun q => PullRequestEvent.id q =? PullRequestEvent.id event)
                      (Heap.pendingPRs h)) eqn:Hq.
    + left. now rewrite handlePullRequest_queued.
    + right. rewrite handlePullRequest_fresh by assumption.
      split; [reflexivity|].
      intros Hin. apply in_map_iff in Hin. destruct Hin as (q & Hid & Hin).
      assert (Hsome : existsb (fun q => PullRequestEvent.id q
                                        =? PullRequestEvent.id event)
                              (Heap.pendingPRs h) = true)
        by (apply pending_has_id; now exists q).
      congruence.
Qed.

Section SchedulerProperties.

Variable JSON_parse : string -> Completion Parsed.t.
Variable buildReviewPrompt :
  PullRequestEvent.t -> string -> ReviewTier -> string * string.
Variable formatGitHubComment : Z -> ReviewTier -> string -> string.

(** What a finished run has done to the heap. *)
Lemma review_heap (w : World.t) (p : PullRequestEvent.t) (h : Heap.t) :
  let after := heap_of (review JSON_parse buildReviewPrompt formatGitHubComment w p h) in
  (Heap.pendingPRs after =
     filter (fun q => negb (PullRequestEvent.id q =? PullRequestEvent.id p))
            (Heap.pendingPRs h) \/
   Heap.pendingPRs after = Heap.pendingPRs h) /\
  (Heap.state after = Heap.state h \/
   exists record,
     ReviewRecord.prId record = PullRequestEvent.id p /\
     Heap.state after = fst (State.recordReview record (Heap.state h))).
Proof.
  cbv zeta.
  destruct (review_shape JSON_parse buildReviewPrompt formatGitHubComment w p)
    as (before & after & commit & completes & Hid & _ & Hrun).
  rewrite Hrun. unfold heap_of. cbn [fst snd Heap.state Heap.pendingPRs].
  split; [destruct completes; auto|].
  destruct commit as [record|].
  - right. exists record. split; [now apply Hid | reflexivity].
  - now left.
Qed.

Lemma isReviewed_review (w : World.t) (p : PullRequestEvent.t) (h : Heap.t) (prId : Z) :
  State.isReviewed (Heap.state h) prId = true ->
  State.isReviewed
    (Heap.state (heap_of (review JSON_parse buildReviewPrompt formatGitHubComment w p h)))
    prId = true.
Proof.
  intros Hreviewed.
  destruct (review_heap w p h) as [_ [-> | (record & _ & ->)]]; [exact Hreviewed|].
  exact (isReviewed_recordReviews [record] (Heap.state h) prId Hreviewed).
Qed.

(** X18. Restart safety.  Once [isReviewed] holds of an id, and no
    pipeline for it is pending or running, it stays so whatever happens
    next: [isReviewed] keeps holding of it, redelivered events with that
    id are never queued, and no pipeline is ever mounted for it. *)
Theorem reviewed_never_runs (prId : Z) (sys sys' : System.t) :
  steps JSON_parse buildReviewPrompt formatGitHubComment sys sys' ->
  State.isReviewed (Heap.state (System.heap sys)) prId = true ->
  (forall p, In p (Heap.pendingPRs (System.heap sys)) -> PullRequestEvent.id p <> prId) ->
  (forall p, In p (System.running sys) -> PullRequestEvent.id p <> prId) ->
  State.isReviewed (Heap.state (System.heap sys')) prId = true /\
  (forall p, In p (Heap.pendingPRs (System.heap sys')) -> PullRequestEvent.id p <> prId) /\
  (forall p, In p (System.running sys') -> PullRequestEvent.id p <> prId).
Proof.
  induction 1 as [sys | sys mid sys' Hstep _ IH]; intros Hreviewed Hpending Hrunning.
  - auto.
  - destruct Hstep as [event h running | p h running Hshown
                      | w p h before after];
      cbn [System.heap System.running] in *; apply IH; clear IH.
    + destruct (handlePullRequest_heap event h) as [-> | [Hqueued _]];
        [exact Hreviewed|].
      now rewrite Hqueued.
    + destruct (Z.eq_dec (PullRequestEvent.id event) prId) as [Hsame | Hother].
      * rewrite handlePullRequest_reviewed by now rewrite Hsame.
        exact Hpending.
      * destruct (handlePullRequest_heap event h) as [-> | [-> _]];
          [exact Hpending|].
        cbn [Heap.pendingPRs]. intros q Hq.
        apply in_app_or in Hq. destruct Hq as [Hq | [<- | []]];
          [now apply Hpending | exact Hother].
    + exact Hrunning.
    + exact Hreviewed.
    + exact Hpending.
    + intros q [<- | Hq]; [|now apply Hrunning].
      apply filter_In in Hshown. destruct Hshown as [_ Hnot].
      apply negb_true_iff in Hnot. congruence.
    + now apply isReviewed_review.
    + intros q Hq.
      destruct (review_heap w p h) as [[Hafter | Hafter] _]; rewrite Hafter in Hq.
      * apply filter_In in Hq. now apply Hpending.
      * now apply Hpending.
    + intros q Hq. apply Hrunning.
      apply in_app_or in Hq. apply in_or_app. cbn. tauto.
Qed.

End SchedulerProperties.

(** * Further properties of the code *)

(** ** The store across a restart and a commit *)

(** X1. Restart: once [StateManager] has rendered and its handler has run,
    in either order, the history is the restored snapshot, in its order,
    and [isReviewed] holds exactly of the ids recorded in it; on a first
    run, with nothing restored, the history is empty. *)
Theorem mounted_restores_snapshot (restored : option (list ReviewRecord.t)) :
  State.StateManager_render (State.StateManager_handler (State.loaded restored))
  = mounted restored /\
  State.getReviewHistory (mounted restored) = State.orEmpty restored /\
  (forall prId,
     State.isReviewed (mounted restored) prId = true <->
     exists r, In r (State.orEmpty restored) /\ ReviewRecord.prId r = prId) /\
  State.getReviewHistory (mounted None) = [].
Proof.
  split; [reflexivity|]. split; [reflexivity|]. split; [|reflexivity].
  intros prId. rewrite isReviewed_records.
  unfold State.ids, State.records, mounted. cbn.
  rewrite in_map_iff. split.
  - intros (_ & r & Hid & Hin). now exists r.
  - intros (r & Hin & Hid). split; [reflexivity|]. now exists r.
Qed.

Lemma getReviewHistory_recordReview (record : ReviewRecord.t) (s : State.t) :
  State._setOutputs s = true ->
  State._reviews s = true ->
  State.getReviewHistory (fst (State.recordReview record s))
  = (State.getReviewHistory s ++ [record])%list.
Proof.
  intros Hset Hacc. unfold State.recordReview, State.getReviewHistory.
  rewrite Hset. cbn. now rewrite ?Hacc.
Qed.

(** X2. Read your write: on a mounted store, right after [recordReview]
    the history is the former history followed by the record, and
    [isReviewed] holds of the record's id and of the ids it held of
    before, and of no other. *)
Theorem recordReview_read_your_write (record : ReviewRecord.t) (s : State.t) :
  State._setOutputs s = true ->
  State._reviews s = true ->
  State.getReviewHistory (fst (State.recordReview record s))
  = (State.getReviewHistory s ++ [record])%list /\
  (forall prId,
     State.isReviewed (fst (State.recordReview record s)) prId
     = State.isReviewed s prId || (ReviewRecord.prId record =? prId)).
Proof.
  intros Hset Hacc.
  unfold State.recordReview, State.getReviewHistory, State.isReviewed.
  rewrite Hset. cbn. rewrite ?Hacc. cbn.
  split; [reflexivity|].
  intros prId. rewrite existsb_app. cbn. now rewrite orb_false_r.
Qed.

Lemma recordReview_read_your_write_record42 :
  State.isReviewed (fst (State.recordReview record42 (mounted None))) 1001 = true.
Proof.
  destruct (recordReview_read_your_write record42 (mounted None) eq_refl eq_refl)
    as [_ Hreviewed].
  rewrite Hreviewed. reflexivity.
Defined.

(** ** The dashboard API *)

Lemma count_verdict_app (v : Verdict) (l1 l2 : list ReviewRecord.t) :
  count_verdict v (l1 ++ l2) = (count_verdict v l1 + count_verdict v l2)%nat.
Proof.
  unfold count_verdict. now rewrite filter_app, length_app.
Qed.

(** A verdict value is at most one of the three verdict strings. *)
Lemma is_verdict_exclusive (value : VerdictValue) :
  ((if is_verdict approve value then 1 else 0)
   + (if is_verdict request_changes value then 1 else 0)
   + (if is_verdict comment value then 1 else 0))%nat
  = (if is_verdict approve value || is_verdict request_changes value
        || is_verdict comment value then 1 else 0)%nat.
Proof.
  destruct value as [s | key]; [|reflexivity]. cbn [is_verdict verdict_text].
  destruct (String.eqb_spec s "approve") as [-> | _]; [reflexivity|].
  destruct (String.eqb_spec s "request_changes") as [-> | _]; [reflexivity|].
  now destruct (String.eqb s "comment").
Qed.

(** Every record is counted under one of the three verdicts or left out
    of all three counts. *)
Lemma count_verdict_partition (history : list ReviewRecord.t) :
  List.length history =
  (count_verdict approve history + count_verdict request_changes history
   + count_verdict comment history
   + List.length (filter (fun r => negb (known_verdict r)) history))%nat.
Proof.
  unfold count_verdict.
  induction history as [|r history IH]; [reflexivity|].
  pose proof (is_verdict_exclusive (ReviewRecord.verdict r)) as Hone.
  cbn [filter List.length]. unfold known_verdict at 1.
  destruct (is_verdict approve (ReviewRecord.verdict r)),
           (is_verdict request_changes (ReviewRecord.verdict r)),
           (is_verdict comment (ReviewRecord.verdict r));
    cbn in Hone |- *; try discriminate; lia.
Qed.

Lemma filter_nil_forallb {A : Type} (keep : A -> bool) (l : list A) :
  List.length (filter (fun a => negb (keep a)) l) = 0%nat <-> forallb keep l = true.
Proof.
  induction l as [|a l IH]; [easy|].
  cbn. destruct (keep a); cbn; [exact IH|]. split; discriminate.
Qed.

(** X3. [GET /api/reviews]: the answer carries the whole history, the
    total is its length, and each of the three counts is the number of
    records whose verdict is that string.  A record is counted under at
    most one verdict: the three counts and the number of records whose
    verdict is none of the three strings add up to the total, so the
    counts add up to the total exactly when every record carries one of
    the three verdicts.  While the store is not mounted the answer is
    empty with all counts zero. *)
Theorem api_reviews_counts (s : State.t) :
  let answer := api_reviews s in
  let stats := ReviewsResponse.stats answer in
  ReviewsResponse.reviews answer = State.getReviewHistory s /\
  ReviewsResponse.total answer = List.length (ReviewsResponse.reviews answer) /\
  Stats.approve stats = count_verdict approve (ReviewsResponse.reviews answer) /\
  Stats.request_changes stats
    = count_verdict request_changes (ReviewsResponse.reviews answer) /\
  Stats.comment stats = count_verdict comment (ReviewsResponse.reviews answer) /\
  ReviewsResponse.total answer
  = (Stats.approve stats + Stats.request_changes stats + Stats.comment stats
     + List.length (filter (fun r => negb (known_verdict r))
                           (ReviewsResponse.reviews answer)))%nat /\
  (ReviewsResponse.total answer
   = (Stats.approve stats + Stats.request_changes stats + Stats.comment stats)%nat
   <-> forallb known_verdict (ReviewsResponse.reviews answer) = true) /\
  (State._reviews s = false ->
   answer = {| ReviewsResponse.reviews := [];
               ReviewsResponse.total := 0;
               ReviewsResponse.stats := {| Stats.approve := 0;
                                           Stats.request_changes := 0;
                                           Stats.comment := 0 |} |}).
Proof.
  cbv zeta. unfold api_reviews.
  cbn [ReviewsResponse.reviews ReviewsResponse.total ReviewsResponse.stats
       Stats.approve Stats.request_changes Stats.comment].
  pose proof (count_verdict_partition (State.getReviewHistory s)) as Hsum.
  repeat (split; [reflexivity|]).
  split; [exact Hsum|]. split.
  - rewrite <- filter_nil_forallb. lia.
  - intros Hnull. unfold State.getReviewHistory. now rewrite Hnull.
Qed.

Lemma api_reviews_counts_unchecked :
  ReviewsResponse.total
    (api_reviews (mounted (Some [record42; record_unchecked]))) = 2%nat /\
  (Stats.approve
     (ReviewsResponse.stats
        (api_reviews (mounted (Some [record42; record_unchecked]))))
   + Stats.request_changes
       (ReviewsResponse.stats
          (api_reviews (mounted (Some [record42; record_unchecked]))))
   + Stats.comment
       (ReviewsResponse.stats
          (api_reviews (mounted (Some [record42; record_unchecked])))))%nat
  = 1%nat.
Proof.
  destruct (api_reviews_counts (mounted (Some [record42; record_unchecked])))
    as (Hreviews & Htotal & _ & _ & _ & Hsum & _).
  cbv zeta in Hreviews, Htotal, Hsum.
  rewrite Htotal, Hreviews in Hsum. rewrite Htotal, Hreviews.
  split; [reflexivity|].
  match type of Hsum with
  | ?total = (_ + ?unknown)%nat =>
      change total with 2%nat in Hsum; change unknown with 1%nat in Hsum
  end.
  lia.
Defined.

(** X4. On a mounted store a [recordReview] shows in the next
    [GET /api/reviews]: the record is the last of the reviews, the total
    grows by one, and each of the three counts grows by one when the
    record's verdict is that string and stays otherwise; so at most one
    count grows, and none when the verdict is none of the three
    strings. *)
Theorem api_reviews_after_recordReview (record : ReviewRecord.t) (s : State.t) :
  State._setOutputs s = true ->
  State._reviews s = true ->
  let before := ReviewsResponse.stats (api_reviews s) in
  let after := ReviewsResponse.stats (api_reviews (fst (State.recordReview record s))) in
  ReviewsResponse.reviews (api_reviews (fst (State.recordReview record s)))
  = (ReviewsResponse.reviews (api_reviews s) ++ [record])%list /\
  ReviewsResponse.total (api_reviews (fst (State.recordReview record s)))
  = S (ReviewsResponse.total (api_reviews s)) /\
  Stats.approve after
  = (Stats.approve before
     + if is_verdict approve (ReviewRecord.verdict record) then 1 else 0)%nat /\
  Stats.request_changes after
  = (Stats.request_changes before
     + if is_verdict request_changes (ReviewRecord.verdict record) then 1 else 0)%nat /\
  Stats.comment after
  = (Stats.comment before
     + if is_verdict comment (ReviewRecord.verdict record) then 1 else 0)%nat /\
  (Stats.approve after + Stats.request_changes after + Stats.comment after)%nat
  = (Stats.approve before + Stats.request_changes before + Stats.comment before
     + if known_verdict record then 1 else 0)%nat.
Proof.
  intros Hset Hacc. cbv zeta. unfold api_reviews.
  cbn [ReviewsResponse.reviews ReviewsResponse.total ReviewsResponse.stats
       Stats.approve Stats.request_changes Stats.comment].
  rewrite (getReviewHistory_recordReview record s Hset Hacc).
  assert (Hone : forall v,
             count_verdict v [record]
             = if is_verdict v (ReviewRecord.verdict record) then 1%nat else 0%nat).
  { intros v. unfold count_verdict. cbn.
    now destruct (is_verdict v (ReviewRecord.verdict record)). }
  rewrite !count_verdict_app, !Hone.
  split; [reflexivity|]. split; [rewrite length_app; cbn; lia|].
  repeat (split; [reflexivity|]).
  pose proof (is_verdict_exclusive (ReviewRecord.verdict record)) as Hsum.
  unfold known_verdict. lia.
Qed.

Lemma api_reviews_after_recordReview_record42 :
  Stats.approve
    (ReviewsResponse.stats
       (api_reviews (fst (State.recordReview record42 (mounted None))))) = 1%nat /\
  Stats.request_changes
    (ReviewsResponse.stats
       (api_reviews (fst (State.recordReview record42 (mounted None))))) = 0%nat /\
  Stats.comment
    (ReviewsResponse.stats
       (api_reviews (fst (State.recordReview record42 (mounted None))))) = 0%nat /\
  ReviewsResponse.total
    (api_reviews (fst (State.recordReview record42 (mounted None)))) = 1%nat.
Proof.
  destruct (api_reviews_after_recordReview record42 (mounted None) eq_refl eq_refl)
    as (_ & Htotal & Happrove & Hchanges & Hcomment & _).
  cbv zeta in Happrove, Hchanges, Hcomment.
  rewrite Htotal, Happrove, Hchanges, Hcomment.
  repeat split.
Defined.

(** ** The pending set *)

Lemma handleReviewComplete_heap (prId : Z) (h : Heap.t) :
  heap_of (handleReviewComplete prId h) =
  {| Heap.state := Heap.state h;
     Heap.pendingPRs :=
       filter (fun q => negb (PullRequestEvent.id q =? prId)) (Heap.pendingPRs h) |}.
Proof. reflexivity. Qed.

Lemma filter_twice {A : Type} (keep : A -> bool) (l : list A) :
  filter keep (filter keep l) = filter keep l.
Proof.
  induction l as [|a l IH]; [reflexivity|].
  cbn. destruct (keep a) eqn:Hkeep; cbn; [rewrite Hkeep, IH|]; auto.
Qed.

Lemma filter_swap {A : Type} (f g : A -> bool) (l : list A) :
  filter f (filter g l) = filter g (filter f l).
Proof.
  induction l as [|a l IH]; [reflexivity|].
  cbn. destruct (f a) eqn:Hf, (g a) eqn:Hg; cbn; rewrite ?Hf, ?Hg, IH; auto.
Qed.

Lemma filter_all {A : Type} (keep : A -> bool) (l : list A) :
  (forall a, In a l -> keep a = true) -> filter keep l = l.
Proof.
  induction l as [|a l IH]; intros Hall; [reflexivity|].
  cbn. rewrite (Hall a) by now left.
  f_equal. apply IH. intros b Hb. apply Hall. now right.
Qed.

(** X5. [handleReviewComplete] removes from the pending set the entries
    with the given id, all of them and no other, and leaves the store
    alone; when no pending entry has the id it changes nothing; calling it
    again changes nothing more; and two completions commute. *)
Theorem handleReviewComplete_removes (prId : Z) (h : Heap.t) :
  let after := heap_of (handleReviewComplete prId h) in
  Heap.state after = Heap.state h /\
  (forall q, In q (Heap.pendingPRs after) <->
             In q (Heap.pendingPRs h) /\ PullRequestEvent.id q <> prId) /\
  ((forall q, In q (Heap.pendingPRs h) -> PullRequestEvent.id q <> prId) ->
   after = h) /\
  heap_of (handleReviewComplete prId after) = after /\
  (forall other,
     heap_of (handleReviewComplete other after)
     = heap_of (handleReviewComplete prId (heap_of (handleReviewComplete other h)))).
Proof.
  cbv zeta. rewrite !handleReviewComplete_heap. cbn [Heap.state Heap.pendingPRs].
  split; [reflexivity|]. split; [|split; [|split]].
  - intros q. rewrite filter_In, negb_true_iff, Z.eqb_neq. tauto.
  - intros Hnone. destruct h as [st pending]. cbn in *. f_equal.
    apply filter_all. intros q Hq.
    apply negb_true_iff, Z.eqb_neq. now apply Hnone.
  - now rewrite filter_twice.
  - intros other. rewrite !handleReviewComplete_heap.
    cbn [Heap.state Heap.pendingPRs]. now rewrite filter_swap.
Qed.

Lemma handleReviewComplete_removes_absent :
  heap_of (handleReviewComplete 7 (heap42 (mounted None))) = heap42 (mounted None).
Proof.
  destruct (handleReviewComplete_removes 7 (heap42 (mounted None)))
    as (_ & _ & Habsent & _).
  apply Habsent.
  intros q [<- | []]. discriminate.
Defined.

Lemma app_call_pending_distinct (c : AppCall) (h : Heap.t) :
  NoDup (map PullRequestEvent.id (Heap.pendingPRs h)) ->
  NoDup (map PullRequestEvent.id (Heap.pendingPRs (heap_of (app_call c h)))).
Proof.
  intros Hnodup. destruct c as [event | prId]; cbn [app_call].
  - destruct (handlePullRequest_heap event h) as [-> | [-> Hnew]]; [exact Hnodup|].
    cbn [Heap.pendingPRs]. rewrite map_app. apply NoDup_app_iff.
    split; [exact Hnodup|]. split.
    + constructor; [intros []|constructor].
    + intros a Ha [<- | []]. exact (Hnew Ha).
  - rewrite handleReviewComplete_heap. cbn [Heap.pendingPRs].
    now apply NoDup_map_filter.
Qed.

(** X6. The pending set never holds two entries with one id: whatever
    events are delivered and whatever completions are signalled, in any
    order and whatever the state of the store, pairwise distinct pending
    ids stay pairwise distinct. *)
Theorem app_calls_pending_distinct (calls : list AppCall) (h : Heap.t) :
  NoDup (map PullRequestEvent.id (Heap.pendingPRs h)) ->
  NoDup (map PullRequestEvent.id (Heap.pendingPRs (app_calls calls h))).
Proof.
  revert h. induction calls as [|c calls IH]; intros h Hnodup; cbn.
  - exact Hnodup.
  - apply IH. now apply app_call_pending_distinct.
Qed.

Lemma app_calls_pending_distinct_pr42 :
  NoDup (map PullRequestEvent.id
           (Heap.pendingPRs
              (app_calls [onPullRequest_call pr42; onPullRequest_call pr42;
                          onComplete_call 1001; onPullRequest_call pr42]
                         {| Heap.state := State.loaded None;
                            Heap.pendingPRs := [] |}))).
Proof.
  apply app_calls_pending_distinct. constructor.
Defined.

(** ** The code-hosting client *)

(** X7. [botAlreadyCommented] answers true exactly when the bot's login is
    known, the list of reviews was obtained and one of the reviews is by
    that login.  While the login is empty (authentication failed or has
    not finished) it answers false without asking GitHub; a failed request
    also answers false. *)
Theorem botAlreadyCommented_spec (w : World.t) (repo : string) (prNumber : Z) :
  (fst (GitHub.botAlreadyCommented_impl w repo prNumber) = true <->
   World.botLogin w <> EmptyString /\
   exists reviews,
     World.listReviews w = Normal reviews /\
     exists r, In r reviews /\ GitHubReview.login r = Some (World.botLogin w)) /\
  (World.botLogin w = EmptyString ->
   GitHub.botAlreadyCommented_impl w repo prNumber = (false, [])) /\
  (forall e, World.listReviews w = Throw e ->
             fst (GitHub.botAlreadyCommented_impl w repo prNumber) = false).
Proof.
  unfold GitHub.botAlreadyCommented_impl.
  split; [|split].
  - destruct (World.botLogin w) as [|c login] eqn:Hlogin; cbn.
    { split; [discriminate | now intros [Habs _]]. }
    destruct (World.listReviews w) as [reviews | e]; cbn.
    + rewrite existsb_exists. split.
      * intros (r & Hin & Hmatch). split; [discriminate|].
        exists reviews. split; [reflexivity|]. exists r. split; [exact Hin|].
        destruct (GitHubReview.login r) as [l|]; [|discriminate].
        apply String.eqb_eq in Hmatch. now subst.
      * intros (_ & reviews' & [= <-] & r & Hin & Hr).
        exists r. split; [exact Hin|]. rewrite Hr. apply String.eqb_refl.
    + split; [discriminate|]. now intros (_ & reviews & Habs & _).
  - intros ->. reflexivity.
  - intros e ->. now destruct (falsy (World.botLogin w)).
Qed.

Lemma botAlreadyCommented_spec_commented :
  fst (GitHub.botAlreadyCommented_impl world_commented "acme/shop" 42) = true.
Proof.
  apply (botAlreadyCommented_spec world_commented "acme/shop" 42).
  split; [discriminate|].
  eexists. split; [reflexivity|].
  exists {| GitHubReview.login := Some "review-bot" |}.
  split; [right; now left | reflexivity].
Defined.

(** X8. [fetchDiff] returns a non-empty text only when the request
    answered with an OK response whose body is that text; a failed
    request, a response that is not OK and a body that cannot be read all
    give the empty string. *)
Theorem fetchDiff_spec (w : World.t) (diffUrl : string) :
  (forall diff, falsy diff = false ->
     (fst (GitHub.fetchDiff_impl w diffUrl) = diff <->
      exists response,
        World.fetch w = Normal response /\
        Response.ok response = true /\
        Response.text response = Normal diff)) /\
  (forall e, World.fetch w = Throw e ->
             fst (GitHub.fetchDiff_impl w diffUrl) = EmptyString) /\
  (forall response, World.fetch w = Normal response ->
     Response.ok response = false ->
     fst (GitHub.fetchDiff_impl w diffUrl) = EmptyString) /\
  (forall response e, World.fetch w = Normal response ->
     Response.text response = Throw e ->
     fst (GitHub.fetchDiff_impl w diffUrl) = EmptyString).
Proof.
  unfold GitHub.fetchDiff_impl. split; [|split; [|split]].
  - intros diff Hdiff.
    destruct (World.fetch w) as [response | e]; cbn.
    + destruct (Response.ok response) eqn:Hok; cbn.
      * destruct (Response.text response) as [text | e] eqn:Htext; cbn.
        -- split.
           ++ intros <-. now exists response.
           ++ intros (response' & [= <-] & _ & Hsame). congruence.
        -- split.
           ++ intros <-. discriminate.
           ++ intros (response' & [= <-] & _ & Hsame). congruence.
      * split.
        -- intros <-. discriminate.
        -- intros (response' & [= <-] & Hok' & _). congruence.
    + split.
      * intros <-. discriminate.
      * now intros (response & Habs & _).
  - now intros e ->.
  - intros response -> Hok. now rewrite Hok.
  - intros response e -> Htext. rewrite Htext. now destruct (Response.ok response).
Qed.

Lemma fetchDiff_spec_ok :
  fst (GitHub.fetchDiff_impl world_ok "https://github.com/acme/shop/pull/42.diff")
  = "diff --git a/x b/x".
Proof.
  apply (fetchDiff_spec world_ok "https://github.com/acme/shop/pull/42.diff");
    [reflexivity|].
  eexists. repeat split.
Defined.

(** X9. The comment id recorded for a review is the id GitHub returned,
    and only a positive one: [commentId > 0 ? commentId : undefined]
    applied to the result of [postReviewComment] is an id exactly when
    [createReview] answered with that id and the id is positive; the [-1]
    of a failed request is never recorded. *)
Theorem postReviewComment_commentId (w : World.t) (repo : string) (prNumber : Z)
    (body : string) (verdict : Verdict) (id : Z) :
  commentId_of (fst (GitHub.postReviewComment_impl w repo prNumber body verdict))
  = Some id <->
  World.createReview w = Normal id /\ 0 < id.
Proof.
  unfold GitHub.postReviewComment_impl, commentId_of.
  destruct (World.createReview w) as [data_id | e]; cbn.
  - destruct (data_id >? 0) eqn:Hpos.
    + split.
      * intros [= <-]. split; [reflexivity | lia].
      * now intros [[= <-] _].
    + split; [discriminate|]. intros [[= <-] Hid]. lia.
  - split; [discriminate|]. now intros [Habs _].
Qed.

Lemma postReviewComment_commentId_555 :
  commentId_of (fst (GitHub.postReviewComment_impl world_ok "acme/shop" 42
                       "Looks good." approve)) = Some 555.
Proof.
  apply (postReviewComment_commentId world_ok "acme/shop" 42 "Looks good." approve 555).
  split; [reflexivity | lia].
Defined.

(** ** Runs of the pipeline *)

Lemma botAlreadyCommented_trace (w : World.t) (repo : string) (prNumber : Z) :
  let t := snd (GitHub.botAlreadyCommented_impl w repo prNumber) in
  existsb is_call_fetch t = false /\
  existsb is_call_messages_create t = false /\
  existsb is_call_createReview t = false.
Proof.
  unfold GitHub.botAlreadyCommented_impl.
  destruct (falsy (World.botLogin w)); [now cbn|].
  destruct (World.listReviews w); now cbn.
Qed.

Lemma fetchDiff_trace (w : World.t) (diffUrl : string) :
  let t := snd (GitHub.fetchDiff_impl w diffUrl) in
  existsb is_call_messages_create t = false /\
  existsb is_call_createReview t = false.
Proof.
  unfold GitHub.fetchDiff_impl.
  destruct (World.fetch w) as [response|]; [|now cbn].
  destruct (Response.ok response); [|now cbn].
  destruct (Response.text response); now cbn.
Qed.

Lemma isReviewed_recordReview_other (record : ReviewRecord.t) (s : State.t) (prId : Z) :
  prId <> ReviewRecord.prId record ->
  State.isReviewed (fst (State.recordReview record s)) prId = State.isReviewed s prId.
Proof.
  intros Hother. unfold State.recordReview, State.isReviewed.
  destruct (State._setOutputs s); cbn; [|reflexivity].
  destruct (State._reviews s); cbn; [|reflexivity].
  rewrite existsb_app. cbn.
  assert (Hneq : (ReviewRecord.prId record =? prId) = false)
    by (apply Z.eqb_neq; congruence).
  now rewrite Hneq, !orb_false_r.
Qed.

Section PipelineRuns.

Variable JSON_parse : string -> Completion Parsed.t.
Variable buildReviewPrompt :
  PullRequestEvent.t -> string -> ReviewTier -> string * string.
Variable formatGitHubComment : Z -> ReviewTier -> string -> string.

Lemma callClaude_trace (w : World.t) (apiKey : option string)
    (p : PullRequestEvent.t) (tier : ReviewTier) (system user : string) :
  existsb is_call_createReview
    (snd (callClaude JSON_parse w apiKey p tier system user)) = false.
Proof.
  unfold callClaude, parseReviewResult.
  destruct (World.new_Anthropic w); [|reflexivity].
  destruct (World.messages_create w) as [[|block rest]|]; try reflexivity.
  now destruct (JSON_parse (cleaned (raw_of block))).
Qed.

Lemma callClaude_quiet (w : World.t) (apiKey : option string)
    (p : PullRequestEvent.t) (tier : ReviewTier) (system user : string) (prId : Z) :
  let t := snd (callClaude JSON_parse w apiKey p tier system user) in
  existsb (is_removed_log prId) t = false /\
  existsb is_reviewed_log t = false /\
  (forall parsed,
     fst (callClaude JSON_parse w apiKey p tier system user) = Normal parsed ->
     existsb is_call_messages_create t = true).
Proof.
  unfold callClaude, parseReviewResult.
  destruct (World.new_Anthropic w); [|now cbn].
  destruct (World.messages_create w) as [[|block rest]|]; try now cbn.
  now destruct (JSON_parse (cleaned (raw_of block))).
Qed.

Lemma GitHub_quiet (w : World.t) (p : PullRequestEvent.t) (prId : Z)
    (body : string) (event : ReviewEvent) :
  let quiet := fun t => existsb (is_removed_log prId) t = false
                        /\ existsb is_reviewed_log t = false in
  quiet (snd (GitHub.botAlreadyCommented_impl w (PullRequestEvent.repo p)
                                              (PullRequestEvent.number p))) /\
  quiet (snd (GitHub.fetchDiff_impl w (PullRequestEvent.diffUrl p))) /\
  quiet (snd (GitHub.postReviewComment_impl w (PullRequestEvent.repo p)
                (PullRequestEvent.number p) body event)).
Proof.
  cbv zeta. split; [|split].
  - unfold GitHub.botAlreadyCommented_impl.
    destruct (falsy (World.botLogin w)); [now cbn|].
    now destruct (World.listReviews w).
  - unfold GitHub.fetchDiff_impl.
    destruct (World.fetch w) as [response|]; [|now cbn].
    destruct (Response.ok response); [|now cbn].
    now destruct (Response.text response).
  - unfold GitHub.postReviewComment_impl.
    now destruct (World.createReview w).
Qed.

Lemma recordReview_quiet (record : ReviewRecord.t) (s : State.t) (prId : Z) :
  existsb (is_removed_log prId) (snd (State.recordReview record s)) = false /\
  existsb is_reviewed_log (snd (State.recordReview record s)) = false.
Proof.
  unfold State.recordReview. now destruct (State._setOutputs s).
Qed.

(** X10. A run either completes or throws a [TypeError]; no other outcome
    exists.  A run that completes has called [onComplete] as its last
    act, after which no pending entry has the item's id.  A run that
    throws has made the inference call, logs no review, does not call
    [onComplete] and leaves the pending set as it was.  Either way the
    run touches the store at most once, through one [recordReview] of a
    record of the item. *)
Theorem review_resolves_or_throws (w : World.t) (p : PullRequestEvent.t) (h : Heap.t) :
  let run := review JSON_parse buildReviewPrompt formatGitHubComment w p h in
  (fst (fst run) = Normal tt /\
   (exists front,
      trace_of run
      = (front ++ [console_log (App_removed (PullRequestEvent.id p))])%list) /\
   (forall q, In q (Heap.pendingPRs (heap_of run)) <->
              In q (Heap.pendingPRs h) /\
              PullRequestEvent.id q <> PullRequestEvent.id p)
   \/
   fst (fst run) = Throw TypeError /\
   Heap.pendingPRs (heap_of run) = Heap.pendingPRs h /\
   existsb (is_removed_log (PullRequestEvent.id p)) (trace_of run) = false /\
   existsb is_reviewed_log (trace_of run) = false /\
   existsb is_call_messages_create (trace_of run) = true) /\
  (Heap.state (heap_of run) = Heap.state h \/
   exists record,
     ReviewRecord.prId record = PullRequestEvent.id p /\
     Heap.state (heap_of run) = fst (State.recordReview record (Heap.state h))).
Proof.
  cbv zeta.
  destruct (review_heap JSON_parse buildReviewPrompt formatGitHubComment w p h)
    as [_ Hstate].
  split; [|exact Hstate]. clear Hstate.
  assert (Hfiltered : forall pending q,
            In q (filter (fun q => negb (PullRequestEvent.id q
                                         =? PullRequestEvent.id p)) pending) <->
            In q pending /\ PullRequestEvent.id q <> PullRequestEvent.id p).
  { intros pending q. rewrite filter_In, negb_true_iff, Z.eqb_neq. tauto. }
  run_proc.
  destruct (GitHub.botAlreadyCommented_impl w _ _) as [[|] t_bot] eqn:Hbot;
    cbn [fst snd].
  { left. cbn. split; [reflexivity|]. split; [|apply Hfiltered].
    eexists (_ :: t_bot ++ [_])%list. cbn. now rewrite <- app_assoc. }
  destruct (GitHub.fetchDiff_impl w _) as [diff t_diff] eqn:Hfetch; cbn [fst snd].
  destruct (falsy diff).
  { left. cbn. split; [reflexivity|]. split; [|apply Hfiltered].
    eexists (_ :: t_bot ++ t_diff ++ [_])%list. cbn.
    now rewrite <- !app_assoc. }
  destruct (buildReviewPrompt p diff _) as [system user].
  destruct (callClaude_quiet w None p
              (getReviewTier (PullRequestEvent.changedLines p)) system user
              (PullRequestEvent.id p)) as (Hc1 & Hc2 & Hc3).
  cbv zeta in Hc1, Hc2, Hc3.
  destruct (callClaude JSON_parse w None p _ system user)
    as [[[|body verdict summary] | err] t_call]; cbn [fst snd] in *.
  - right. cbn.
    destruct (GitHub_quiet w p (PullRequestEvent.id p) EmptyString approve)
      as ((Hb1 & Hb2) & (Hf1 & Hf2) & _).
    rewrite Hbot, Hfetch in *. cbn [snd] in *.
    split; [reflexivity|]. split; [reflexivity|].
    rewrite !existsb_app; cbn; rewrite !existsb_app.
    rewrite Hb1, Hb2, Hf1, Hf2, Hc1, Hc2, (Hc3 _ eq_refl). cbn.
    now rewrite !orb_true_r.
  - destruct (GitHub_quiet w p (PullRequestEvent.id p)
                (formatGitHubComment (PullRequestEvent.number p)
                   (getReviewTier (PullRequestEvent.changedLines p)) body)
                (verdictMap (key_of verdict)))
      as ((Hb1 & Hb2) & (Hf1 & Hf2) & (Hp1 & Hp2)).
    rewrite Hbot, Hfetch in *. cbn [snd] in *.
    destruct (GitHub.postReviewComment_impl w _ _ _ _) as [commentId t_post].
    cbn [fst snd] in *.
    destruct (recordReview_quiet
                (commit_record w p verdict (commentId_of commentId))
                (Heap.state h) (PullRequestEvent.id p)) as (Hr1 & Hr2).
    destruct (State.recordReview _ (Heap.state h)) as [s t_state].
    cbn [fst snd] in *.
    destruct verdict as [v | key].
    + left. cbn. split; [reflexivity|]. split; [|apply Hfiltered].
      eexists (_ :: t_bot ++ t_diff ++ _ :: t_call ++ t_post ++ t_state ++ [_])%list.
      cbn. now repeat (rewrite <- app_assoc; cbn).
    + right. cbn. split; [reflexivity|]. split; [reflexivity|].
      rewrite !existsb_app; cbn; rewrite !existsb_app.
      rewrite Hb1, Hb2, Hf1, Hf2, Hc1, Hc2, (Hc3 _ eq_refl). cbn.
      rewrite ?existsb_app, Hp1, Hp2, Hr1, Hr2. cbn.
      now rewrite !orb_true_r.
  - left. cbn. split; [reflexivity|]. split; [|apply Hfiltered].
    eexists (_ :: t_bot ++ t_diff ++ _ :: t_call ++ [_])%list.
    cbn. now repeat (rewrite <- app_assoc; cbn).
Qed.

(** X11. A run whose diff cannot be fetched or is empty gives the item
    up: it warns and signals completion, commits nothing, and neither
    calls the inference service nor posts anything. *)
Theorem review_fetch_failure_aborts
    (w : World.t) (p : PullRequestEvent.t) (h : Heap.t) :
  fst (GitHub.botAlreadyCommented_impl w (PullRequestEvent.repo p)
                                       (PullRequestEvent.number p)) = false ->
  falsy (fst (GitHub.fetchDiff_impl w (PullRequestEvent.diffUrl p))) = true ->
  let run := review JSON_parse buildReviewPrompt formatGitHubComment w p h in
  Heap.state (heap_of run) = Heap.state h /\
  trace_of run =
    (console_log (ReviewPR_starting (PullRequestEvent.number p)
                                    (PullRequestEvent.title p))
     :: snd (GitHub.botAlreadyCommented_impl w (PullRequestEvent.repo p)
                                             (PullRequestEvent.number p))
     ++ snd (GitHub.fetchDiff_impl w (PullRequestEvent.diffUrl p))
     ++ [console_warn (ReviewPR_empty_diff (PullRequestEvent.number p));
         console_log (App_removed (PullRequestEvent.id p))])%list /\
  existsb is_call_messages_create (trace_of run) = false /\
  existsb is_call_createReview (trace_of run) = false.
Proof.
  intros Hbot Hdiff. cbv zeta.
  assert (Hrun : review JSON_parse buildReviewPrompt formatGitHubComment w p h =
    (Normal tt,
     {| Heap.state := Heap.state h;
        Heap.pendingPRs :=
          filter (fun q => negb (PullRequestEvent.id q =? PullRequestEvent.id p))
                 (Heap.pendingPRs h) |},
     (console_log (ReviewPR_starting (PullRequestEvent.number p)
                                     (PullRequestEvent.title p))
      :: snd (GitHub.botAlreadyCommented_impl w (PullRequestEvent.repo p)
                                              (PullRequestEvent.number p))
      ++ snd (GitHub.fetchDiff_impl w (PullRequestEvent.diffUrl p))
      ++ [console_warn (ReviewPR_empty_diff (PullRequestEvent.number p));
          console_log (App_removed (PullRequestEvent.id p))])%list)).
  { run_proc. rewrite Hbot, Hdiff. cbn. reflexivity. }
  rewrite Hrun. unfold heap_of, trace_of. cbn [fst snd Heap.state].
  destruct (botAlreadyCommented_trace w (PullRequestEvent.repo p)
              (PullRequestEvent.number p)) as (_ & Hb1 & Hb2).
  destruct (fetchDiff_trace w (PullRequestEvent.diffUrl p)) as (Hf1 & Hf2).
  cbv zeta in Hb1, Hb2, Hf1, Hf2.
  split; [reflexivity|]. split; [reflexivity|].
  cbn [existsb is_call_messages_create is_call_createReview orb].
  rewrite !existsb_app, Hb1, Hb2, Hf1, Hf2. now cbn.
Qed.

(** X12. A run whose inference call fails (the client cannot be built, the
    request is rejected, or the answer has no content block) gives the
    item up: it logs the error and signals completion, commits nothing and
    posts nothing. *)
Theorem review_inference_failure_aborts
    (w : World.t) (p : PullRequestEvent.t) (h : Heap.t) :
  fst (GitHub.botAlreadyCommented_impl w (PullRequestEvent.repo p)
                                       (PullRequestEvent.number p)) = false ->
  falsy (fst (GitHub.fetchDiff_impl w (PullRequestEvent.diffUrl p))) = false ->
  ((exists e, World.new_Anthropic w = Throw e) \/
   (exists e, World.messages_create w = Throw e) \/
   World.messages_create w = Normal []) ->
  let run := review JSON_parse buildReviewPrompt formatGitHubComment w p h in
  Heap.state (heap_of run) = Heap.state h /\
  existsb is_call_createReview (trace_of run) = false /\
  existsb is_reviewed_log (trace_of run) = false /\
  exists front err,
    trace_of run =
    (front ++ [console_error (ReviewPR_claude_error (PullRequestEvent.number p) err);
               console_log (App_removed (PullRequestEvent.id p))])%list.
Proof.
  intros Hbot Hdiff Hfail. cbv zeta.
  destruct (botAlreadyCommented_trace w (PullRequestEvent.repo p)
              (PullRequestEvent.number p)) as (_ & _ & Hb).
  destruct (fetchDiff_trace w (PullRequestEvent.diffUrl p)) as (_ & Hf).
  cbv zeta in Hb, Hf.
  run_proc. rewrite Hbot, Hdiff.
  destruct (buildReviewPrompt p _ _) as [system user].
  pose proof (callClaude_trace w None p
                (getReviewTier (PullRequestEvent.changedLines p)) system user)
    as Hc.
  assert (Hthrow : exists err t,
             callClaude JSON_parse w None p
               (getReviewTier (PullRequestEvent.changedLines p)) system user
             = (Throw err, t) /\ existsb is_reviewed_log t = false).
  { unfold callClaude.
    destruct Hfail as [[e He] | [[e He] | He]].
    - rewrite He. now exists e, [].
    - destruct (World.new_Anthropic w) as [[]|e'];
        [rewrite He; now eexists e, _ | now exists e', []].
    - destruct (World.new_Anthropic w) as [[]|e'];
        [rewrite He; now eexists TypeError, _ | now exists e', []]. }
  destruct Hthrow as (err & t_call & Hcall & Hquiet).
  rewrite Hcall in *. cbn in Hc. cbn.
  split; [reflexivity|]. split; [|split].
  - rewrite !existsb_app, Hb, Hf. cbn. rewrite existsb_app, Hc. reflexivity.
  - rewrite !existsb_app.
    assert (Hb' : existsb is_reviewed_log
                    (snd (GitHub.botAlreadyCommented_impl w (PullRequestEvent.repo p)
                            (PullRequestEvent.number p))) = false).
    { unfold GitHub.botAlreadyCommented_impl.
      destruct (falsy (World.botLogin w)); [reflexivity|].
      now destruct (World.listReviews w). }
    assert (Hf' : existsb is_reviewed_log
                    (snd (GitHub.fetchDiff_impl w (PullRequestEvent.diffUrl p))) = false).
    { unfold GitHub.fetchDiff_impl.
      destruct (World.fetch w) as [response|]; [|reflexivity].
      destruct (Response.ok response); [|reflexivity].
      now destruct (Response.text response). }
    rewrite Hb', Hf'. cbn. rewrite existsb_app, Hquiet. reflexivity.
  - eexists (_ :: snd (GitHub.botAlreadyCommented_impl w _ _)
               ++ snd (GitHub.fetchDiff_impl w _) ++ _ :: t_call)%list, err.
    cbn. now repeat (rewrite <- app_assoc; cbn).
Qed.

(** X13. A run in which every service answers and GitHub returns a
    positive review id posts the formatted comment body of the result
    under the result's verdict, and commits a record that carries the same
    verdict, the returned id, the pull request's id, number and
    repository, and the time of the commit. *)
Theorem review_success_records
    (w : World.t) (p : PullRequestEvent.t) (h : Heap.t)
    (block : ContentBlock) (rest : list ContentBlock)
    (reviewResult : ReviewResult.t) (reviewId : Z) :
  fst (GitHub.botAlreadyCommented_impl w (PullRequestEvent.repo p)
                                       (PullRequestEvent.number p)) = false ->
  falsy (fst (GitHub.fetchDiff_impl w (PullRequestEvent.diffUrl p))) = false ->
  World.new_Anthropic w = Normal tt ->
  World.messages_create w = Normal (block :: rest) ->
  fst (parseReviewResult JSON_parse (raw_of block) p) = Normal reviewResult ->
  World.createReview w = Normal reviewId ->
  0 < reviewId ->
  let run := review JSON_parse buildReviewPrompt formatGitHubComment w p h in
  Heap.state (heap_of run) =
    fst (State.recordReview
           {| ReviewRecord.prId := PullRequestEvent.id p;
              ReviewRecord.prNumber := PullRequestEvent.number p;
              ReviewRecord.repo := PullRequestEvent.repo p;
              ReviewRecord.reviewedAt := World.now w;
              ReviewRecord.verdict := ReviewResult.verdict reviewResult;
              ReviewRecord.commentId := Some reviewId |}
           (Heap.state h)) /\
  In (call_createReview
        (GitHub.owner_of (PullRequestEvent.repo p))
        (GitHub.repoName_of (PullRequestEvent.repo p))
        (PullRequestEvent.number p)
        (formatGitHubComment (PullRequestEvent.number p)
           (getReviewTier (PullRequestEvent.changedLines p))
           (ReviewResult.commentBody reviewResult))
        (ReviewResult.verdict reviewResult))
     (trace_of run).
Proof.
  intros Hbot Hdiff Hclient Hmessage Hparsed Hpost Hpositive. cbv zeta.
  destruct (review_reaches_commit JSON_parse buildReviewPrompt formatGitHubComment
              w p h block rest reviewResult Hbot Hdiff Hclient Hmessage Hparsed)
    as (Hheap & front & Htrace).
  unfold GitHub.postReviewComment_impl in Hheap, Htrace.
  rewrite Hpost in Hheap, Htrace. cbn [fst snd] in Hheap, Htrace.
  assert (Hid : commentId_of reviewId = Some reviewId).
  { unfold commentId_of.
    assert (Hgt : (reviewId >? 0) = true) by (apply Z.gtb_lt; lia).
    now rewrite Hgt. }
  rewrite Hid in Hheap.
  rewrite Hheap, Htrace. split; [reflexivity|].
  apply in_or_app. right. now left.
Qed.

(** X14. A run is local to its item: for every other id [isReviewed]
    answers after the run what it answered before, and the pending
    entries with another id are kept. *)
Theorem review_is_local (w : World.t) (p : PullRequestEvent.t) (h : Heap.t) :
  let after := heap_of (review JSON_parse buildReviewPrompt formatGitHubComment w p h) in
  (forall prId, prId <> PullRequestEvent.id p ->
     State.isReviewed (Heap.state after) prId = State.isReviewed (Heap.state h) prId) /\
  (forall q, PullRequestEvent.id q <> PullRequestEvent.id p ->
     (In q (Heap.pendingPRs after) <-> In q (Heap.pendingPRs h))) /\
  filter (fun q => negb (PullRequestEvent.id q =? PullRequestEvent.id p))
         (Heap.pendingPRs after)
  = filter (fun q => negb (PullRequestEvent.id q =? PullRequestEvent.id p))
           (Heap.pendingPRs h).
Proof.
  cbv zeta.
  destruct (review_heap JSON_parse buildReviewPrompt formatGitHubComment w p h)
    as [Hpending Hstate].
  split; [|split].
  - intros prId Hother.
    destruct Hstate as [-> | (record & Hrec & ->)]; [reflexivity|].
    apply isReviewed_recordReview_other. congruence.
  - intros q Hother. destruct Hpending as [-> | ->]; [|reflexivity].
    rewrite filter_In, negb_true_iff, Z.eqb_neq. tauto.
  - destruct Hpending as [-> | ->]; [apply filter_twice | reflexivity].
Qed.

(** X15. An item whose run left it unreviewed, delivered once more.
    After a run that completed, the event is queued, at the end of the
    pending set.  After a run that threw, the item is still pending as
    it was, and the event is dropped as already queued. *)
Theorem unreviewed_run_redelivery
    (w : World.t) (p : PullRequestEvent.t) (h : Heap.t) :
  let run := review JSON_parse buildReviewPrompt formatGitHubComment w p h in
  let after := heap_of run in
  State.isReviewed (Heap.state after) (PullRequestEvent.id p) = false ->
  (fst (fst run) = Normal tt ->
   Heap.pendingPRs (heap_of (handlePullRequest p after))
   = (filter (fun q => negb (PullRequestEvent.id q =? PullRequestEvent.id p))
             (Heap.pendingPRs h) ++ [p])%list) /\
  (fst (fst run) = Throw TypeError ->
   Heap.pendingPRs after = Heap.pendingPRs h /\
   (In p (Heap.pendingPRs h) ->
    heap_of (handlePullRequest p after) = after /\
    In p (Heap.pendingPRs (heap_of (handlePullRequest p after))))).
Proof.
  cbv zeta. intros Hunreviewed.
  destruct (review_shape JSON_parse buildReviewPrompt formatGitHubComment w p)
    as (before & rest & commit & completes & _ & _ & Hrun).
  rewrite Hrun in *. unfold heap_of in *.
  cbn [fst snd Heap.state Heap.pendingPRs] in *.
  split.
  - intros Hcompletes. destruct completes; [|discriminate].
    rewrite handlePullRequest_fresh.
    + reflexivity.
    + exact Hunreviewed.
    + apply not_true_is_false. intros Hq.
      apply pending_has_id in Hq. destruct Hq as (q & Hin & Hid).
      cbn [Heap.pendingPRs] in Hin.
      apply filter_In in Hin. destruct Hin as [_ Hkeep].
      apply negb_true_iff, Z.eqb_neq in Hkeep. contradiction.
  - intros Hthrows. destruct completes; [discriminate|].
    split; [reflexivity|]. intros Hin.
    rewrite handlePullRequest_queued.
    + split; [reflexivity | exact Hin].
    + exact Hunreviewed.
    + apply pending_has_id. now exists p.
Qed.

End PipelineRuns.

Lemma review_fetch_failure_aborts_not_found :
  State.records
    (Heap.state (heap_of (review parse42 prompt42 comment42 world_not_found
                                 pr42 (heap42 (mounted None))))) = [].
Proof.
  rewrite (proj1 (review_fetch_failure_aborts parse42 prompt42 comment42
                    world_not_found pr42 (heap42 (mounted None))
                    eq_refl eq_refl)).
  reflexivity.
Defined.

Lemma review_inference_failure_aborts_down :
  Heap.state (heap_of (review parse42 prompt42 comment42 world_claude_down
                              pr42 (heap42 (mounted None)))) = mounted None.
Proof.
  apply (review_inference_failure_aborts parse42 prompt42 comment42
           world_claude_down pr42 (heap42 (mounted None)));
    [reflexivity | reflexivity |].
  right. left. now exists (ServiceError 529).
Defined.

Lemma review_success_records_pr42 :
  State.records
    (Heap.state (heap_of (review parse42 prompt42 comment42 world_ok
                                 pr42 (heap42 (mounted None)))))
  = [ {| ReviewRecord.prId := 1001;
         ReviewRecord.prNumber := 42;
         ReviewRecord.repo := "acme/shop";
         ReviewRecord.reviewedAt := "2025-01-01T00:05:00Z";
         ReviewRecord.verdict := approve;
         ReviewRecord.commentId := Some 555 |} ].
Proof.
  rewrite (proj1 (review_success_records parse42 prompt42 comment42
                    world_ok pr42 (heap42 (mounted None))
                    (text_block json42) [] result42 555
                    eq_refl eq_refl eq_refl eq_refl eq_refl eq_refl eq_refl)).
  reflexivity.
Defined.

Lemma review_is_local_pr43 :
  In pr43 (Heap.pendingPRs
             (heap_of (review parse42 prompt42 comment42 world_ok pr42
                         {| Heap.state := mounted None;
                            Heap.pendingPRs := [pr42; pr43] |}))).
Proof.
  apply (review_is_local parse42 prompt42 comment42 world_ok pr42
           {| Heap.state := mounted None; Heap.pendingPRs := [pr42; pr43] |}).
  - discriminate.
  - right. now left.
Defined.

Lemma unreviewed_run_redelivery_pr42 :
  Heap.pendingPRs
    (heap_of (handlePullRequest pr42
                (heap_of (review parse42 prompt42 comment42 world_not_found
                                 pr42 (heap42 (mounted None))))))
  = [pr42] /\
  heap_of (handlePullRequest pr42
             (heap_of (review parse42 prompt42 comment42 world_null
                              pr42 (heap42 (mounted None)))))
  = heap_of (review parse42 prompt42 comment42 world_null
                    pr42 (heap42 (mounted None))).
Proof.
  split.
  - apply (unreviewed_run_redelivery parse42 prompt42 comment42
             world_not_found pr42 (heap42 (mounted None)));
      reflexivity.
  - apply (unreviewed_run_redelivery parse42 prompt42 comment42
             world_null pr42 (heap42 (mounted None)));
      [reflexivity | reflexivity | now left].
Defined.

(** ** The token budget *)

(** X16. The token budget of the inference call is 1024, 2048 or 4096
    according to the tier, and it never shrinks as the number of changed
    lines grows. *)
Theorem max_tokens_monotone (n m : Z) :
  n <= m ->
  max_tokens (getReviewTier n) <= max_tokens (getReviewTier m) /\
  (n <= 50 -> max_tokens (getReviewTier n) = 1024) /\
  (50 < n <= 300 -> max_tokens (getReviewTier n) = 2048) /\
  (300 < n -> max_tokens (getReviewTier n) = 4096).
Proof.
  intros Hle. unfold getReviewTier.
  destruct (Z.leb_spec n 50), (Z.leb_spec n 300),
           (Z.leb_spec m 50), (Z.leb_spec m 300); cbn; repeat split; lia.
Qed.

Lemma max_tokens_monotone_20_500 :
  max_tokens (getReviewTier 20) <= max_tokens (getReviewTier 500).
Proof.
  apply (max_tokens_monotone 20 500). lia.
Defined.

(** ** The running system on the sample inputs *)

Lemma reviewed_never_runs_pr42 :
  Heap.pendingPRs
    (heap_of (handlePullRequest pr42 (System.heap (started (Some [record42])))))
  = [] /\
  State.isReviewed
    (Heap.state
       (heap_of (handlePullRequest pr42 (System.heap (started (Some [record42]))))))
    1001 = true.
Proof.
  split; [reflexivity|].
  refine (proj1 (reviewed_never_runs parse42 prompt42 comment42 1001
                   (started (Some [record42]))
                   {| System.heap :=
                        heap_of (handlePullRequest pr42
                                   (System.heap (started (Some [record42]))));
                      System.running := [] |} _ _ _ _)).
  - eapply steps_next; [apply (step_deliver _ _ _ pr42)|]. apply steps_done.
  - reflexivity.
  - intros p [].
  - intros p [].
Defined.

(** ** Strings *)

Lemma split_not_nil (sep : ascii) (s : string) : split sep s <> [].
Proof.
  destruct s as [|c rest]; cbn; [discriminate|].
  destruct (Ascii.eqb c sep); [discriminate|].
  destruct (split sep rest); discriminate.
Qed.

Lemma split_free (sep : ascii) (s : string) :
  free_of sep s = true -> split sep s = [s].
Proof.
  induction s as [|c rest IH]; cbn; [reflexivity|].
  intros Hfree. apply andb_true_iff in Hfree. destruct Hfree as [Hc Hrest].
  apply negb_true_iff in Hc. rewrite Hc, (IH Hrest). reflexivity.
Qed.

Lemma split_app (sep : ascii) (a b : string) :
  free_of sep a = true ->
  split sep (a +++ String sep b) = a :: split sep b.
Proof.
  induction a as [|c rest IH]; cbn.
  - intros _. now rewrite Ascii.eqb_refl.
  - intros Hfree. apply andb_true_iff in Hfree. destruct Hfree as [Hc Hrest].
    apply negb_true_iff in Hc. rewrite Hc, (IH Hrest). reflexivity.
Qed.

(** X19. [split] and [join] are inverse: joining the pieces of
    [s.split(sep)] with the separator gives [s] back; there is always at
    least one piece, no piece contains the separator, and a string without
    the separator is its only piece. *)
Theorem split_concat (sep : ascii) (s : string) :
  String.concat (str sep) (split sep s) = s /\
  split sep s <> [] /\
  Forall (fun piece => free_of sep piece = true) (split sep s) /\
  (free_of sep s = true -> split sep s = [s]).
Proof.
  split; [|split; [apply split_not_nil|split; [|apply split_free]]].
  - induction s as [|c rest IH]; cbn; [reflexivity|].
    pose proof (split_not_nil sep rest) as Hnil.
    destruct (Ascii.eqb c sep) eqn:Hc.
    + apply Ascii.eqb_eq in Hc. subst c.
      destruct (split sep rest) as [|h t]; [contradiction|].
      cbn in *. now rewrite IH.
    + destruct (split sep rest) as [|h t]; [contradiction|].
      destruct t as [|h' t']; cbn in *; now rewrite <- IH.
  - induction s as [|c rest IH]; cbn; [now repeat constructor|].
    pose proof (split_not_nil sep rest) as Hnil.
    destruct (Ascii.eqb c sep) eqn:Hc.
    + constructor; [reflexivity | exact IH].
    + destruct (split sep rest) as [|h t]; [contradiction|].
      inversion IH as [|? ? Hh Ht]; subst.
      constructor; [|exact Ht]. cbn. now rewrite Hc, Hh.
Qed.

Lemma split_concat_repo :
  free_of "/" "shop" = true /\ split "/" "shop" = ["shop"].
Proof.
  split; [reflexivity|].
  apply (split_concat "/" "shop"). reflexivity.
Defined.

(** X20. The owner and the repository name sent to GitHub: for a full
    name [owner/name] they are [owner] and [name]; anything after a second
    slash is dropped; for a name without a slash the owner is the whole
    name and the repository name is undefined. *)
Theorem owner_repoName_of (owner name : string) :
  free_of "/" owner = true ->
  free_of "/" name = true ->
  (GitHub.owner_of (owner +++ String "/" name) = Some owner /\
   GitHub.repoName_of (owner +++ String "/" name) = Some name) /\
  (forall more,
     GitHub.owner_of (owner +++ String "/" (name +++ String "/" more)) = Some owner /\
     GitHub.repoName_of (owner +++ String "/" (name +++ String "/" more)) = Some name) /\
  (GitHub.owner_of owner = Some owner /\ GitHub.repoName_of owner = None).
Proof.
  intros Howner Hname. unfold GitHub.owner_of, GitHub.repoName_of.
  split; [|split].
  - rewrite split_app by exact Howner. now rewrite split_free.
  - intros more. rewrite split_app by exact Howner.
    now rewrite split_app by exact Hname.
  - now rewrite split_free.
Qed.

Lemma owner_repoName_of_acme :
  GitHub.owner_of "acme/shop" = Some "acme" /\
  GitHub.repoName_of "acme/shop" = Some "shop".
Proof.
  apply (owner_repoName_of "acme" "shop"); reflexivity.
Defined.

Lemma trimStart_clean (s : string) : starts_with_space (trimStart s) = false.
Proof.
  induction s as [|c rest IH]; cbn; [reflexivity|].
  destruct (is_space c) eqn:Hc; [exact IH | cbn; exact Hc].
Qed.

Lemma trimStart_fixed (s : string) :
  starts_with_space s = false -> trimStart s = s.
Proof.
  destruct s as [|c rest]; cbn; [reflexivity|]. now intros ->.
Qed.

Lemma trimStart_all_space (s : string) : all_space s = true -> trimStart s = EmptyString.
Proof.
  induction s as [|c rest IH]; cbn; [reflexivity|].
  intros Hall. apply andb_true_iff in Hall. destruct Hall as [Hc Hrest].
  rewrite Hc. now apply IH.
Qed.

Lemma trimStart_app (s t : string) :
  trimStart (s +++ t) = if all_space s then trimStart t else trimStart s +++ t.
Proof.
  induction s as [|c rest IH]; cbn; [reflexivity|].
  destruct (is_space c); cbn; [exact IH | reflexivity].
Qed.

Lemma trimEnd_clean (s : string) : ends_with_space (trimEnd s) = false.
Proof.
  induction s as [|c rest IH]; cbn; [reflexivity|].
  destruct (trimEnd rest) as [|x r] eqn:Hrest.
  - destruct (is_space c) eqn:Hc; cbn; [reflexivity | exact Hc].
  - exact IH.
Qed.

Lemma trimEnd_fixed (s : string) :
  ends_with_space s = false -> trimEnd s = s.
Proof.
  induction s as [|c rest IH]; [reflexivity|].
  destruct rest as [|x r].
  - cbn. now intros ->.
  - intros Hends. change (ends_with_space (String x r) = false) in Hends.
    specialize (IH Hends).
    remember (String x r) as tail eqn:Htail.
    cbn [trimEnd]. rewrite IH. now subst tail.
Qed.

Lemma trimEnd_keeps_start (s : string) :
  starts_with_space s = false -> starts_with_space (trimEnd s) = false.
Proof.
  destruct s as [|c rest]; cbn; [reflexivity|].
  intros Hc. destruct (trimEnd rest); cbn; now rewrite ?Hc.
Qed.

Lemma trimEnd_app_space (s : string) (c : ascii) :
  is_space c = true -> trimEnd (s +++ str c) = trimEnd s.
Proof.
  intros Hc. induction s as [|x rest IH]; cbn.
  - now rewrite Hc.
  - now rewrite IH.
Qed.

(** X21. [trim]: the result neither starts nor ends with white space;
    trimming it again changes nothing; a string of white space only is
    trimmed to the empty string; and a string that neither starts nor
    ends with white space is left as it is. *)
Theorem trim_spec (s : string) :
  starts_with_space (trim s) = false /\
  ends_with_space (trim s) = false /\
  trim (trim s) = trim s /\
  (all_space s = true -> trim s = EmptyString) /\
  (starts_with_space s = false -> ends_with_space s = false -> trim s = s).
Proof.
  assert (Hstart : starts_with_space (trim s) = false)
    by (apply trimEnd_keeps_start, trimStart_clean).
  assert (Hend : ends_with_space (trim s) = false) by apply trimEnd_clean.
  split; [exact Hstart|]. split; [exact Hend|]. split; [|split].
  - unfold trim at 1. rewrite (trimStart_fixed _ Hstart).
    now apply trimEnd_fixed.
  - intros Hall. unfold trim. now rewrite trimStart_all_space.
  - intros Hs He. unfold trim. rewrite (trimStart_fixed _ Hs).
    now apply trimEnd_fixed.
Qed.

Lemma trim_spec_blank : trim ("  " +++ str nl) = EmptyString.
Proof.
  apply (trim_spec ("  " +++ str nl)). reflexivity.
Defined.

Lemma trim_app_space (s : string) (c : ascii) :
  is_space c = true -> trim (s +++ str c) = trim s.
Proof.
  intros Hc. unfold trim. rewrite trimStart_app.
  destruct (all_space s) eqn:Hall.
  - rewrite (trimStart_all_space s Hall). cbn. now rewrite Hc.
  - now apply trimEnd_app_space.
Qed.

Lemma prefix_backtick (pat s : string) (c : ascii) :
  Ascii.eqb c backtick = false ->
  String.prefix (String backtick pat) (String c s) = false.
Proof.
  intros Hc.
  change (String.prefix (String backtick pat) (String c s))
    with (if ascii_dec backtick c then String.prefix pat s else false).
  destruct (ascii_dec backtick c) as [Heq | Hneq]; [|reflexivity].
  subst c. now rewrite Ascii.eqb_refl in Hc.
Qed.

Lemma append_empty_r (s : string) : s +++ EmptyString = s.
Proof. induction s as [|c rest IH]; cbn; [reflexivity | now rewrite IH]. Qed.

Lemma replace_go_free (pat rest_of_pat body tail : string) :
  pat = String backtick rest_of_pat ->
  free_of backtick body = true ->
  replace_go pat 0 false (body +++ tail) = body +++ replace_go pat 0 false tail.
Proof.
  intros ->.
  induction body as [|c rest IH]; intros Hfree; [reflexivity|].
  cbn [free_of] in Hfree. apply andb_true_iff in Hfree.
  destruct Hfree as [Hc Hrest]. apply negb_true_iff in Hc.
  cbn [String.append replace_go andb].
  rewrite (prefix_backtick rest_of_pat (rest +++ tail) c Hc).
  now rewrite (IH Hrest).
Qed.

(** X22. [cleaned] takes the markdown fence off an answer: for a body
    without backticks, the body inside a [```json] fence or a plain
    [```] fence, and the bare body, are all cleaned to the trimmed
    body. *)
Theorem cleaned_strips_fence (body : string) :
  free_of backtick body = true ->
  cleaned ("```json" +++ str nl +++ body +++ str nl +++ "```") = trim body /\
  cleaned ("```" +++ str nl +++ body +++ str nl +++ "```") = trim body /\
  cleaned body = trim body.
Proof.
  intros Hfree. unfold cleaned, replace_fence.
  assert (Hnl : free_of backtick (str nl +++ body) = true) by exact Hfree.
  split; [|split].
  - change (replace_go "```json" 0 false
              ("```json" +++ str nl +++ body +++ str nl +++ "```"))
      with (replace_go "```json" 0 false (body +++ str nl +++ "```")).
    rewrite (replace_go_free "```json" "``json" body _ eq_refl Hfree).
    change (replace_go "```json" 0 false (str nl +++ "```"))
      with (str nl +++ "```").
    rewrite (replace_go_free "```" "``" body _ eq_refl Hfree).
    change (replace_go "```" 0 false (str nl +++ "```")) with (str nl).
    now apply trim_app_space.
  - change (replace_go "```json" 0 false
              ("```" +++ str nl +++ body +++ str nl +++ "```"))
      with ("```" +++ replace_go "```json" 0 false
                        ((str nl +++ body) +++ str nl +++ "```")).
    rewrite (replace_go_free "```json" "``json" (str nl +++ body) _ eq_refl Hnl).
    change (replace_go "```json" 0 false (str nl +++ "```"))
      with (str nl +++ "```").
    change (replace_go "```" 0 false
              ("```" +++ (str nl +++ body) +++ str nl +++ "```"))
      with (replace_go "```" 0 false (body +++ str nl +++ "```")).
    rewrite (replace_go_free "```" "``" body _ eq_refl Hfree).
    change (replace_go "```" 0 false (str nl +++ "```")) with (str nl).
    now apply trim_app_space.
  - rewrite <- (append_empty_r body) at 1.
    rewrite (replace_go_free "```json" "``json" body _ eq_refl Hfree).
    change (replace_go "```json" 0 false EmptyString) with EmptyString.
    rewrite append_empty_r.
    rewrite <- (append_empty_r body) at 1.
    rewrite (replace_go_free "```" "``" body _ eq_refl Hfree).
    change (replace_go "```" 0 false EmptyString) with EmptyString.
    now rewrite append_empty_r.
Qed.

Lemma cleaned_strips_fence_json42 :
  cleaned ("```json" +++ str nl +++ json42 +++ str nl +++ "```") = trim json42.
Proof.
  apply (cleaned_strips_fence json42). reflexivity.
Defined.

(** ** The webhook receiver *)

Lemma timingSafeEqual_true (a b : string) :
  Channel.timingSafeEqual a b = Some true <-> a = b.
Proof.
  unfold Channel.timingSafeEqual. split.
  - destruct (Nat.eqb (String.length a) (String.length b)); [|discriminate].
    intros [= Heq]. now apply String.eqb_eq.
  - intros ->. now rewrite Nat.eqb_refl, String.eqb_refl.
Qed.

Section ChannelProperties.

Variable hmac_sha256_hex : string -> string -> string.
Variable JSON_parse : string -> Completion Channel.Payload.t.

Lemma verifySignature_true (payload secret : string) (signature : option string) :
  Channel.verifySignature hmac_sha256_hex payload secret signature = true <->
  signature = Some ("sha256=" +++ hmac_sha256_hex secret payload).
Proof.
  unfold Channel.verifySignature.
  destruct signature as [given|]; [|split; discriminate].
  destruct given as [|c rest]; cbn [falsy].
  - split; discriminate.
  - destruct (Channel.timingSafeEqual (String c rest)
                ("sha256=" +++ hmac_sha256_hex secret payload)) as [[|]|] eqn:Hcmp.
    + apply timingSafeEqual_true in Hcmp. rewrite Hcmp. tauto.
    + split; [discriminate|]. intros Heq.
      assert (Hsame : Channel.timingSafeEqual (String c rest)
                        ("sha256=" +++ hmac_sha256_hex secret payload) = Some true)
        by (apply timingSafeEqual_true; congruence).
      congruence.
    + split; [discriminate|]. intros Heq.
      assert (Hsame : Channel.timingSafeEqual (String c rest)
                        ("sha256=" +++ hmac_sha256_hex secret payload) = Some true)
        by (apply timingSafeEqual_true; congruence).
      congruence.
Qed.

(** X23. Only authentic, tracked pull-request events leave the Channel:
    the listener hands an event to [onPullRequest] exactly when the
    request is a POST to [/webhook], its signature header is the HMAC of
    the body under the secret, its event header is [pull_request], the
    body parses to a payload whose action is [opened], [synchronize] or
    [reopened] and from which the event can be built.  When it does, the
    response is [OK] with status 200 and the one console line names the
    event. *)
Theorem listener_emits (webhookSecret : string) (req : Channel.IncomingMessage.t)
    (prEvent : PullRequestEvent.t) :
  let handled := Channel.listener hmac_sha256_hex JSON_parse webhookSecret req in
  (Channel.emitted handled = Some prEvent <->
   Channel.IncomingMessage.method req = "POST" /\
   Channel.IncomingMessage.url req = "/webhook" /\
   Channel.IncomingMessage.x_hub_signature_256 req =
     Some ("sha256=" +++ hmac_sha256_hex webhookSecret
                           (Channel.body_of (Channel.IncomingMessage.chunks req))) /\
   Channel.IncomingMessage.x_github_event req = Some "pull_request" /\
   exists payload action,
     JSON_parse (Channel.body_of (Channel.IncomingMessage.chunks req)) = Normal payload /\
     Channel.Payload.action payload = Some action /\
     (action = "opened" \/ action = "synchronize" \/ action = "reopened") /\
     Channel.prEvent_of payload = Normal prEvent) /\
  (Channel.emitted handled = Some prEvent ->
   Channel.response handled = Channel.OK /\
   Channel.statusCode (Channel.response handled) = 200 /\
   Channel.console handled =
     [Channel.Channel_received (PullRequestEvent.number prEvent)
                               (PullRequestEvent.title prEvent)
                               (PullRequestEvent.author prEvent)
                               (PullRequestEvent.changedLines prEvent)]).
Proof.
  cbv zeta. split.
  2:{ unfold Channel.listener.
      destruct (_ || _); [discriminate|].
      destruct (negb (Channel.verifySignature _ _ _ _)); [discriminate|].
      destruct (negb (Channel.is_pull_request _)); [discriminate|].
      destruct (JSON_parse _) as [payload|]; [|discriminate].
      destruct (negb (Channel.tracked _)); [discriminate|].
      destruct (Channel.prEvent_of payload) as [built|]; [|discriminate].
      cbn. intros [= <-]. repeat split. }
  unfold Channel.listener.
  destruct (String.eqb (Channel.IncomingMessage.method req) "POST") eqn:Hmethod;
    cbn [negb orb].
  2:{ split; [discriminate|]. intros (Habs & _).
      apply String.eqb_eq in Habs. congruence. }
  destruct (String.eqb (Channel.IncomingMessage.url req) "/webhook") eqn:Hurl;
    cbn [negb].
  2:{ split; [discriminate|]. intros (_ & Habs & _).
      apply String.eqb_eq in Habs. congruence. }
  apply String.eqb_eq in Hmethod, Hurl.
  destruct (Channel.verifySignature hmac_sha256_hex _ webhookSecret _) eqn:Hsig;
    cbn [negb].
  2:{ split; [discriminate|]. intros (_ & _ & Habs & _).
      apply verifySignature_true in Habs. congruence. }
  apply verifySignature_true in Hsig.
  destruct (Channel.is_pull_request (Channel.IncomingMessage.x_github_event req))
    eqn:Hevent; cbn [negb].
  2:{ split; [discriminate|]. intros (_ & _ & _ & Habs & _).
      rewrite Habs in Hevent. discriminate. }
  assert (Hheader : Channel.IncomingMessage.x_github_event req = Some "pull_request").
  { destruct (Channel.IncomingMessage.x_github_event req) as [name|];
      [|discriminate].
    cbn in Hevent. apply String.eqb_eq in Hevent. now subst. }
  destruct (JSON_parse _) as [payload | e] eqn:Hparse; cbn.
  2:{ split; [discriminate|].
      now intros (_ & _ & _ & _ & payload & action & Habs & _). }
  destruct (Channel.tracked (Channel.Payload.action payload)) eqn:Htracked; cbn.
  2:{ split; [discriminate|].
      intros (_ & _ & _ & _ & payload' & action & [= <-] & Haction & Hin & _).
      rewrite Haction in Htracked. cbn in Htracked.
      destruct Hin as [-> | [-> | ->]]; discriminate. }
  destruct (Channel.prEvent_of payload) as [built | e] eqn:Hbuilt; cbn.
  2:{ split; [discriminate|].
      intros (_ & _ & _ & _ & payload' & action & [= <-] & _ & _ & Habs).
      congruence. }
  split.
  - intros [= <-]. repeat split; trivial.
    destruct (Channel.Payload.action payload) as [action|] eqn:Haction;
      [|discriminate].
    exists payload, action. repeat split; trivial.
    cbn in Htracked. rewrite !orb_true_iff, !String.eqb_eq in Htracked.
    destruct Htracked as [H | [H | [H | H]]]; auto. discriminate.
  - intros (_ & _ & _ & _ & payload' & action & [= <-] & _ & _ & Hsame).
    congruence.
Qed.

Lemma listener_emitted (webhookSecret : string) (req : Channel.IncomingMessage.t)
    (prEvent : PullRequestEvent.t) :
  Channel.emitted (Channel.listener hmac_sha256_hex JSON_parse webhookSecret req)
  = Some prEvent ->
  Channel.response (Channel.listener hmac_sha256_hex JSON_parse webhookSecret req)
  = Channel.OK /\
  exists payload,
    JSON_parse (Channel.body_of (Channel.IncomingMessage.chunks req)) = Normal payload /\
    Channel.prEvent_of payload = Normal prEvent.
Proof.
  unfold Channel.listener.
  destruct (_ || _); [discriminate|].
  destruct (negb (Channel.verifySignature _ _ _ _)); [discriminate|].
  destruct (negb (Channel.is_pull_request _)); [discriminate|].
  destruct (JSON_parse _) as [payload|]; [|discriminate].
  destruct (negb (Channel.tracked _)); [discriminate|].
  destruct (Channel.prEvent_of payload) as [built|] eqn:Hbuilt; [|discriminate].
  cbn. intros [= <-]. split; [reflexivity|]. now exists payload.
Qed.

(** X24. A request the Channel turns away changes nothing: whenever the
    listener hands no event on, the heap is left as it is and the App is
    not called.  In particular a request that is not a POST to [/webhook]
    is answered 404, and a POST to [/webhook] whose signature header is
    missing or is not the HMAC of the body is answered 401. *)
Theorem serve_rejects (webhookSecret : string) (req : Channel.IncomingMessage.t)
    (h : Heap.t) :
  (Channel.emitted (Channel.listener hmac_sha256_hex JSON_parse webhookSecret req)
   = None ->
   Channel.serve hmac_sha256_hex JSON_parse webhookSecret req h
   = (Channel.response
        (Channel.listener hmac_sha256_hex JSON_parse webhookSecret req), h, [])) /\
  (Channel.IncomingMessage.method req <> "POST" \/
   Channel.IncomingMessage.url req <> "/webhook" ->
   Channel.serve hmac_sha256_hex JSON_parse webhookSecret req h
   = (Channel.Not_found, h, [])) /\
  (Channel.IncomingMessage.method req = "POST" ->
   Channel.IncomingMessage.url req = "/webhook" ->
   Channel.IncomingMessage.x_hub_signature_256 req <>
     Some ("sha256=" +++ hmac_sha256_hex webhookSecret
                           (Channel.body_of (Channel.IncomingMessage.chunks req))) ->
   Channel.serve hmac_sha256_hex JSON_parse webhookSecret req h
   = (Channel.Unauthorized, h, [])).
Proof.
  split; [|split].
  - intros Hnone. unfold Channel.serve. now rewrite Hnone.
  - intros Hother. unfold Channel.serve, Channel.listener.
    assert (Hguard : negb (String.eqb (Channel.IncomingMessage.method req) "POST")
                     || negb (String.eqb (Channel.IncomingMessage.url req) "/webhook")
                     = true).
    { apply orb_true_iff.
      destruct Hother as [Hm | Hu]; [left | right];
        apply negb_true_iff, String.eqb_neq; assumption. }
    now rewrite Hguard.
  - intros Hmethod Hurl Hsig. unfold Channel.serve, Channel.listener.
    rewrite Hmethod, Hurl, !String.eqb_refl. cbn [negb orb].
    destruct (Channel.verifySignature hmac_sha256_hex _ webhookSecret _) eqn:Hcheck.
    + apply verifySignature_true in Hcheck. contradiction.
    + reflexivity.
Qed.

(** X25. A request the Channel accepts is answered 200 whatever the App
    does with the event: the event is queued at the end of the pending
    set when it is neither reviewed nor pending, and dropped otherwise;
    the store is never touched.  The changed-line count of the event is
    the sum of the additions and deletions of the payload, a missing one
    counting as 0. *)
Theorem serve_accepts (webhookSecret : string) (req : Channel.IncomingMessage.t)
    (prEvent : PullRequestEvent.t) (h : Heap.t) :
  Channel.emitted (Channel.listener hmac_sha256_hex JSON_parse webhookSecret req)
  = Some prEvent ->
  let served := Channel.serve hmac_sha256_hex JSON_parse webhookSecret req h in
  fst (fst served) = Channel.OK /\
  heap_of served = heap_of (handlePullRequest prEvent h) /\
  Heap.state (heap_of served) = Heap.state h /\
  (State.isReviewed (Heap.state h) (PullRequestEvent.id prEvent) = false ->
   (forall q, In q (Heap.pendingPRs h) ->
              PullRequestEvent.id q <> PullRequestEvent.id prEvent) ->
   Heap.pendingPRs (heap_of served) = (Heap.pendingPRs h ++ [prEvent])%list) /\
  (forall payload pr,
     JSON_parse (Channel.body_of (Channel.IncomingMessage.chunks req)) = Normal payload ->
     Channel.Payload.pull_request payload = Some pr ->
     PullRequestEvent.changedLines prEvent
     = Channel.orZero (Channel.PullRequestPayload.additions pr)
       + Channel.orZero (Channel.PullRequestPayload.deletions pr)).
Proof.
  intros Hemitted. cbv zeta.
  destruct (listener_emitted webhookSecret req prEvent Hemitted)
    as (Hresponse & parsed & Hparsed & Hbuilt).
  assert (Hserved : Channel.serve hmac_sha256_hex JSON_parse webhookSecret req h
                    = (Channel.OK, heap_of (handlePullRequest prEvent h),
                       trace_of (handlePullRequest prEvent h))).
  { unfold Channel.serve. rewrite Hemitted, Hresponse.
    unfold bind, ret, heap_of, trace_of.
    destruct (handlePullRequest prEvent h) as [[[] h'] t]. cbn.
    now rewrite app_nil_r. }
  rewrite Hserved. unfold heap_of at 1 2 3 4. cbn [fst snd].
  split; [reflexivity|]. split; [reflexivity|]. split; [|split].
  - destruct (handlePullRequest_heap prEvent h) as [-> | [-> _]]; reflexivity.
  - intros Hrev Hfresh.
    rewrite handlePullRequest_fresh; [reflexivity | exact Hrev |].
    apply not_true_is_false. intros Hq.
    apply pending_has_id in Hq. destruct Hq as (q & Hin & Hid).
    exact (Hfresh q Hin Hid).
  - intros payload pr Hparse Hpr.
    rewrite Hparse in Hparsed. injection Hparsed as <-.
    unfold Channel.prEvent_of in Hbuilt. rewrite Hpr in Hbuilt.
    destruct (Channel.Payload.repository_full_name payload); [|discriminate].
    destruct (Channel.PullRequestPayload.user_login pr),
             (Channel.PullRequestPayload.base_ref pr),
             (Channel.PullRequestPayload.head_ref pr); try discriminate.
    injection Hbuilt as <-. reflexivity.
Qed.

End ChannelProperties.

Lemma listener_emits_request42 :
  Channel.emitted (Channel.listener mac42 parse_payload42 "s3cret" request42)
  = Some pr42 /\
  Channel.response (Channel.listener mac42 parse_payload42 "s3cret" request42)
  = Channel.OK.
Proof.
  destruct (listener_emits mac42 parse_payload42 "s3cret" request42 pr42)
    as [Hexactly Hanswer].
  assert (Hemitted : Channel.emitted
                       (Channel.listener mac42 parse_payload42 "s3cret" request42)
                     = Some pr42).
  { apply Hexactly. repeat (split; [reflexivity|]).
    exists payload42, "opened". repeat split. now left. }
  split; [exact Hemitted|]. now apply Hanswer.
Defined.

Lemma serve_rejects_unsigned :
  Channel.serve mac42 parse_payload42 "s3cret" request42_unsigned
                {| Heap.state := mounted None; Heap.pendingPRs := [] |}
  = (Channel.Unauthorized, {| Heap.state := mounted None; Heap.pendingPRs := [] |}, []).
Proof.
  apply (serve_rejects mac42 parse_payload42 "s3cret" request42_unsigned).
  - reflexivity.
  - reflexivity.
  - discriminate.
Defined.

Lemma serve_accepts_request42 :
  Heap.pendingPRs
    (heap_of (Channel.serve mac42 parse_payload42 "s3cret" request42
                {| Heap.state := mounted None; Heap.pendingPRs := [] |}))
  = [pr42].
Proof.
  apply (serve_accepts mac42 parse_payload42 "s3cret" request42 pr42
           {| Heap.state := mounted None; Heap.pendingPRs := [] |}).
  - reflexivity.
  - reflexivity.
  - intros q [].
Defined.

(** ** The file backend *)

Section FileMemoryProperties.

Variable DeploymentState : Type.
Variable JSON_parse : string -> Completion DeploymentState.
Variable join : string -> string -> string.

(** X26. [getState] never rejects: it answers a state exactly when the
    file of the stack exists and its content parses, to that state; a
    missing file and a file that does not parse both give [null]. *)
Theorem getState_spec (dir : string) (d : FileMemory.Disk) (stackName : string) :
  (forall state,
     FileMemory.getState DeploymentState JSON_parse join dir d stackName = Some state <->
     exists data,
       FileMemory.files d (FileMemory.path_of join dir stackName) = Some data /\
       JSON_parse data = Normal state) /\
  (FileMemory.files d (FileMemory.path_of join dir stackName) = None ->
   FileMemory.getState DeploymentState JSON_parse join dir d stackName = None) /\
  (forall data e,
     FileMemory.files d (FileMemory.path_of join dir stackName) = Some data ->
     JSON_parse data = Throw e ->
     FileMemory.getState DeploymentState JSON_parse join dir d stackName = None).
Proof.
  unfold FileMemory.getState. split; [|split].
  - intros state.
    destruct (FileMemory.files d _) as [data|].
    + destruct (JSON_parse data) as [parsed | e] eqn:Hparse.
      * split.
        -- intros [= <-]. now exists data.
        -- intros (data' & [= <-] & Hsame). congruence.
      * split; [discriminate|]. intros (data' & [= <-] & Hsame). congruence.
    + split; [discriminate|]. now intros (data & Habs & _).
  - now intros ->.
  - intros data e -> Hthrow. now rewrite Hthrow.
Qed.

End FileMemoryProperties.

Lemma getState_spec_first_run :
  FileMemory.getState string parse_state42 join42 "./.state" disk_empty "pr-review-bot"
  = None.
Proof.
  apply (getState_spec string parse_state42 join42 "./.state" disk_empty "pr-review-bot").
  reflexivity.
Defined.
